(** * PreTextClassify: the IMDB text-classification script

    A shallow embedding of
    [src/com/brigitte/jian/tensorflow/PreTextClassify.py] and the properties
    of its pipeline stages: vocabulary mapping, review decoding, sequence
    normalization, the model definition, the train/validation split and the
    call of the training loop.

    Python integers are unbounded, so token IDs are [Z].  A Python [dict]
    keeps its entries in insertion order and the script builds the inverse
    vocabulary by iterating over one, so dictionaries are insertion-ordered
    association lists with the update-in-place behaviour of [d[k] = v]. *)

From stdpp Require Import base option list numbers strings.

Open Scope string_scope.
Open Scope list_scope.
Open Scope Z_scope.

(** ** Python dictionaries *)

Module PyDict.
Section dict.
Context {K V : Type} `{EqDecision K}.

(** [d.items()], in insertion order. *)
Definition items (d : list (K * V)) : list (K * V) := d.

Definition keys (d : list (K * V)) : list K := d.*1.

Definition values (d : list (K * V)) : list V := d.*2.

(** [d.get(k)]: [None] when the key is absent. *)
Fixpoint get (d : list (K * V)) (k : K) : option V :=
  match d with
  | [] => None
  | (k', v) :: d' => if decide (k' = k) then Some v else get d' k
  end.

(** [d.get(k, dflt)]. *)
Definition get_default (d : list (K * V)) (k : K) (dflt : V) : V :=
  default dflt (get d k).

(** [d[k] = v]: an existing key keeps its position and takes the new
    value, a new key is appended. *)
Fixpoint set (d : list (K * V)) (k : K) (v : V) : list (K * V) :=
  match d with
  | [] => [(k, v)]
  | (k', v') :: d' =>
      if decide (k' = k) then (k', v) :: d' else (k', v') :: set d' k v
  end.

(** [dict(pairs)] and the dict comprehension: the pairs are stored one
    after the other, a later pair overriding an earlier one of the same
    key. *)
Definition of_pairs (l : list (K * V)) : list (K * V) :=
  foldl (λ d kv, set d kv.1 kv.2) [] l.

(** A well-formed dictionary holds every key once. *)
Definition wf (d : list (K * V)) : Prop := NoDup (keys d).
End dict.
End PyDict.

(** ** Vocabulary mapping (source lines 32-46) *)

(** Line 36: [{k: (v + 3) for k, v in word_index.items()}]. *)
Definition shift_ids (raw : list (string * Z)) : list (string * Z) :=
  PyDict.of_pairs ((λ kv, (kv.1, kv.2 + 3)) <$> PyDict.items raw).

(** Lines 36-40: the shifted map with the four control entries assigned. *)
Definition word_index (raw : list (string * Z)) : list (string * Z) :=
  let d := shift_ids raw in
  let d := PyDict.set d "<PAD>" 0 in
  let d := PyDict.set d "<START>" 1 in
  let d := PyDict.set d "<UNK>" 2 in
  PyDict.set d "<UNUSED>" 3.

(** The pair [(value, key)] of line 42. *)
Definition swap_pair {A B} (kv : A * B) : B * A := (kv.2, kv.1).

(** Line 42:
    [dict([(value, key) for (key, value) in word_index.items()])]. *)
Definition reverse_word_index (raw : list (string * Z)) : list (Z * string) :=
  PyDict.of_pairs (swap_pair <$> PyDict.items (word_index raw)).

(** [sep.join(parts)]. *)
Definition str_join (sep : string) (parts : list string) : string :=
  String.concat sep parts.

(** The list comprehension of line 46. *)
Definition decode_fields (rwi : list (Z * string)) (text : list Z) : list string :=
  (λ i, PyDict.get_default rwi i "?") <$> text.

(** Lines 45-46. *)
Definition decode_review (rwi : list (Z * string)) (text : list Z) : string :=
  str_join " " (decode_fields rwi text).

(** ** Exceptions *)

(** The exceptions the script's own operations can raise. *)
Inductive exn := KeyError | IndexError | ValueError.

Inductive result (A : Type) : Type :=
  | Ok (a : A)
  | Raise (e : exn).
Arguments Ok {A} a.
Arguments Raise {A} e.

Definition rbind {A B} (m : result A) (k : A → result B) : result B :=
  match m with
  | Ok a => k a
  | Raise e => Raise e
  end.

Notation "'let!' x ':=' m 'in' k" := (rbind m (λ x, k))
  (at level 10, x name, m at level 100, k at level 200).

Fixpoint rmap_list {A B} (f : A → result B) (l : list A) : result (list B) :=
  match l with
  | [] => Ok []
  | a :: l' =>
      let! b := f a in
      let! bs := rmap_list f l' in
      Ok (b :: bs)
  end.

(** [d[k]]: [KeyError] when the key is absent. *)
Definition dict_getitem {K V} `{EqDecision K} (d : list (K * V)) (k : K) : result V :=
  match PyDict.get d k with
  | Some v => Ok v
  | None => Raise KeyError
  end.

(** [l[i]] for a non-negative literal [i]: [IndexError] out of range. *)
Definition list_getitem {A} (l : list A) (i : nat) : result A :=
  match l !! i with
  | Some a => Ok a
  | None => Raise IndexError
  end.

(** ** Slices *)

(** The position a slice bound [i] denotes in a sequence of length [len]:
    a negative bound counts from the end, and both are clipped. *)
Definition slice_index (len : nat) (i : Z) : nat :=
  if decide (i < 0) then Z.to_nat (Z.max 0 (Z.of_nat len + i))
  else Nat.min (Z.to_nat i) len.

(** [l[:stop]]. *)
Definition slice_to {A} (stop : Z) (l : list A) : list A :=
  take (slice_index (length l) stop) l.

(** [l[start:]]. *)
Definition slice_from {A} (start : Z) (l : list A) : list A :=
  drop (slice_index (length l) start) l.

(** ** The tf.keras calls of the script

    The library is not part of the repository.  Each function the script
    calls is embedded from its published definition, keeping its keyword
    arguments and their defaults, so that a call site of the script reads
    here as it reads in the source. *)

Module Keras.

(** *** [keras.preprocessing.sequence.pad_sequences]

    Signature: [pad_sequences(sequences, maxlen=None, dtype='int32',
    padding='pre', truncating='pre', value=0.0)].  The sequences hold
    token IDs, which the conversion to [dtype] leaves as they are. *)

Inductive side := pre | post.

Definition default_padding : side := pre.
Definition default_truncating : side := pre.
Definition default_value : Z := 0.

(** [trunc = s[-maxlen:]] for ['pre'], [trunc = s[:maxlen]] for
    ['post']. *)
Definition truncate (maxlen : nat) (truncating : side) (s : list Z) : list Z :=
  match truncating with
  | pre => slice_from (- Z.of_nat maxlen) s
  | post => slice_to (Z.of_nat maxlen) s
  end.

(** One row of the result.  The row starts as [maxlen] copies of
    [value]; an empty sequence leaves it as it is ([continue]); otherwise
    the truncated sequence is written at the start (['post']) or at the
    end (['pre']) of the row, which numpy refuses when it is longer than
    the row. *)
Definition pad_row (maxlen : nat) (padding truncating : side) (value : Z)
    (s : list Z) : result (list Z) :=
  match s with
  | [] => Ok (replicate maxlen value)
  | _ =>
      let trunc := truncate maxlen truncating s in
      if decide (length trunc ≤ maxlen)%nat then
        let fill := replicate (maxlen - length trunc) value in
        match padding with
        | post => Ok (trunc ++ fill)
        | pre => Ok (fill ++ trunc)
        end
      else Raise ValueError
  end.

(** [maxlen=None] takes [np.max(lengths)], an error for no sequence. *)
Definition resolve_maxlen (maxlen : option nat) (sequences : list (list Z)) : result nat :=
  match maxlen with
  | Some n => Ok n
  | None =>
      match sequences with
      | [] => Raise ValueError
      | _ => Ok (max_list (length <$> sequences))
      end
  end.

Definition pad_sequences (sequences : list (list Z)) (maxlen : option nat)
    (padding truncating : side) (value : Z) : result (list (list Z)) :=
  let! n := resolve_maxlen maxlen sequences in
  rmap_list (pad_row n padding truncating value) sequences.

(** *** [keras.Sequential] and its layers *)

Inductive layer :=
  | Embedding (input_dim output_dim : Z)
  | GlobalAveragePooling1D
  | Dense (units : Z) (activation : string).

Record compile_args := CompileArgs {
  optimizer : string;
  loss : string;
  metrics : list string;
}.

Record sequential := Model {
  layers : list layer;
  compiled : option compile_args;
}.

(** [keras.Sequential()]. *)
Definition Sequential : sequential := Model [] None.

(** [model.add(layer)]. *)
Definition add (m : sequential) (l : layer) : sequential :=
  Model (layers m ++ [l]) (compiled m).

(** [model.compile(optimizer=..., loss=..., metrics=...)]. *)
Definition compile (m : sequential) (o l : string) (ms : list string) : sequential :=
  Model (layers m) (Some (CompileArgs o l ms)).

(** The identifiers the script passes as strings. *)
Inductive activation_fn := relu | sigmoid.
Inductive optimizer_cls := Adam.
Inductive loss_fn := BinaryCrossentropy.
Inductive metric_fn := Accuracy.

Definition get_activation (name : string) : result activation_fn :=
  if decide (name = "relu") then Ok relu
  else if decide (name = "sigmoid") then Ok sigmoid
  else Raise ValueError.

Definition get_optimizer (name : string) : result optimizer_cls :=
  if decide (name = "adam") then Ok Adam else Raise ValueError.

Definition get_loss (name : string) : result loss_fn :=
  if decide (name = "binary_crossentropy") then Ok BinaryCrossentropy
  else Raise ValueError.

Definition get_metric (name : string) : result metric_fn :=
  if decide (name = "accuracy") then Ok Accuracy else Raise ValueError.

(** A tensor shape without its batch axis; [None] is an axis of unknown
    size. *)
Definition shape := list (option Z).

(** The shape a layer returns: the embedding adds an axis of its output
    dimension, the pooling averages the sequence axis away, a dense layer
    replaces the last axis by its units. *)
Definition output_shape (l : layer) (s : shape) : result shape :=
  match l with
  | Embedding _ out => Ok (s ++ [Some out])
  | GlobalAveragePooling1D =>
      match s with
      | [_; features] => Ok [features]
      | _ => Raise ValueError
      end
  | Dense units _ =>
      match reverse s with
      | Some _ :: rest => Ok (reverse (Some units :: rest))
      | _ => Raise ValueError
      end
  end.

(** The trainable parameters of a layer on an input of shape [s]: the
    embedding table, nothing for the pooling, kernel and bias for a dense
    layer. *)
Definition param_count (l : layer) (s : shape) : Z :=
  match l with
  | Embedding input_dim out => input_dim * out
  | GlobalAveragePooling1D => 0
  | Dense units _ =>
      match last s with
      | Some (Some d) => d * units + units
      | _ => 0
      end
  end.

(** The shapes after each layer of a stack. *)
Fixpoint shapes (ls : list layer) (s : shape) : result (list shape) :=
  match ls with
  | [] => Ok []
  | l :: ls' =>
      let! s' := output_shape l s in
      let! rest := shapes ls' s' in
      Ok (s' :: rest)
  end.

Fixpoint total_params (ls : list layer) (s : shape) : result Z :=
  match ls with
  | [] => Ok 0
  | l :: ls' =>
      let! s' := output_shape l s in
      let! rest := total_params ls' s' in
      Ok (param_count l s + rest)
  end.

(** *** [model.fit]

    Signature (the arguments the script may leave out):
    [fit(x, y, batch_size=None, epochs=1, verbose=1, ...,
    validation_data=None, ...)]; a [batch_size] left at [None] is 32. *)

Definition default_batch_size : nat := 32.
Definition default_epochs : nat := 1.

Record fit_args (X Y : Type) := FitArgs {
  fit_x : X;
  fit_y : Y;
  fit_batch_size : option nat;
  fit_epochs : nat;
  fit_validation_data : option (X * Y);
  fit_verbose : nat;
}.
Arguments FitArgs {X Y}.
Arguments fit_x {X Y}.
Arguments fit_y {X Y}.
Arguments fit_batch_size {X Y}.
Arguments fit_epochs {X Y}.
Arguments fit_validation_data {X Y}.
Arguments fit_verbose {X Y}.

Definition effective_batch_size {X Y} (a : fit_args X Y) : nat :=
  default default_batch_size (fit_batch_size a).

(** The sizes of the mini-batches of one pass over [n] rows: full batches
    and, when [n] is not a multiple of the batch size, a last smaller
    one. *)
Definition batch_sizes (n b : nat) : list nat :=
  replicate (n / b) b ++ (if decide (n mod b = 0)%nat then [] else [n mod b]%nat).

(** What a run of [fit] does, in order: a parameter update per
    mini-batch, and after each pass an evaluation on the validation
    data, which updates nothing. *)
Inductive fit_event :=
  | Update (epoch : nat) (batch : nat)
  | Validate (epoch : nat) (rows : nat).

Definition fit_epoch {A B} (a : fit_args (list A) (list B)) (epoch : nat) : list fit_event :=
  (Update epoch <$> batch_sizes (length (fit_x a)) (effective_batch_size a)) ++
  match fit_validation_data a with
  | Some (xv, _) => [Validate epoch (length xv)]
  | None => []
  end.

Definition fit_trace {A B} (a : fit_args (list A) (list B)) : list fit_event :=
  concat (fit_epoch a <$> seq 0 (fit_epochs a)).

End Keras.

(** ** The stages of the script *)

(** What [imdb.load_data(num_words=10000)] returns (line 18). *)
Record dataset := Dataset {
  train_data : list (list Z);
  train_labels : list Z;
  test_data : list (list Z);
  test_labels : list Z;
}.

(** Lines 68-71: the call made on [train_data] and on [test_data],
    [pad_sequences(data, value=word_index["<PAD>"], padding='post',
    maxlen=256)]; [truncating] is not passed. *)
Definition normalize (wi : list (string * Z)) (data : list (list Z)) :
    result (list (list Z)) :=
  let! value := dict_getitem wi "<PAD>" in
  Keras.pad_sequences data (Some 256%nat) Keras.post Keras.default_truncating value.

(** Line 88. *)
Definition vocab_size : Z := 10000.

(** Lines 98-102. *)
Definition model : Keras.sequential :=
  let m := Keras.Sequential in
  let m := Keras.add m (Keras.Embedding vocab_size 16) in
  let m := Keras.add m Keras.GlobalAveragePooling1D in
  let m := Keras.add m (Keras.Dense 16 "relu") in
  Keras.add m (Keras.Dense 1 "sigmoid").

(** Line 116. *)
Definition compiled_model : Keras.sequential :=
  Keras.compile model "adam" "binary_crossentropy" ["accuracy"].

(** Lines 122-128, on the normalized training data and on the training
    labels. *)
Definition x_val (data : list (list Z)) : list (list Z) := slice_to 10000 data.
Definition partial_x_train (data : list (list Z)) : list (list Z) := slice_from 10000 data.
Definition y_val (labels : list Z) : list Z := slice_to 10000 labels.
Definition partial_y_train (labels : list Z) : list Z := slice_from 10000 labels.

(** Line 134: [model.fit(partial_x_train, partial_y_train, epochs=40,
    validation_data=(x_val, y_val), verbose=1)]; [batch_size] is not
    passed. *)
Definition fit_call (data : list (list Z)) (labels : list Z) :
    Keras.fit_args (list (list Z)) (list Z) :=
  Keras.FitArgs (partial_x_train data) (partial_y_train labels)
    None 40 (Some (x_val data, y_val labels)) 1.

(** ** The script, top to bottom *)

Record outcome := Outcome {
  out_word_index : list (string * Z);
  out_reverse_word_index : list (Z * string);
  out_title : string;
  out_train_data : list (list Z);
  out_test_data : list (list Z);
  out_model : Keras.sequential;
  out_x_val : list (list Z);
  out_partial_x_train : list (list Z);
  out_y_val : list Z;
  out_partial_y_train : list Z;
  out_fit : Keras.fit_args (list (list Z)) (list Z);
}.

(** The script on the vocabulary [raw] of [imdb.get_word_index()] and the
    data [ds] of [imdb.load_data]: the values it binds up to the call of
    [fit], or the exception that stops it. *)
Definition script (raw : list (string * Z)) (ds : dataset) : result outcome :=
  let! _ := list_getitem (test_data ds) 0 in
  let wi := word_index raw in
  let rwi := reverse_word_index raw in
  let! first := list_getitem (train_data ds) 0 in
  let title := decode_review rwi first in
  let! train := normalize wi (train_data ds) in
  let! test := normalize wi (test_data ds) in
  let! _ := list_getitem train 0 in
  let! _ := list_getitem train 1 in
  Ok (Outcome wi rwi title train test compiled_model
        (x_val train) (partial_x_train train)
        (y_val (train_labels ds)) (partial_y_train (train_labels ds))
        (fit_call train (train_labels ds))).

(** ** Vocabulary contracts used in the statements *)

(** The four control entries of lines 37-40. *)
Definition control_tokens : list (string * Z) :=
  [("<PAD>", 0); ("<START>", 1); ("<UNK>", 2); ("<UNUSED>", 3)].

(** The ID of a control token, [None] for any other word. *)
Definition control_id (w : string) : option Z := PyDict.get control_tokens w.

(** The map of [imdb.get_word_index()] ranks the words by frequency: it is
    a dictionary, two words never share a rank, and ranks start at 1. *)
Definition frequency_ranked (raw : list (string * Z)) : Prop :=
  PyDict.wf raw ∧ NoDup (PyDict.values raw) ∧ Forall (λ v, 1 ≤ v) (PyDict.values raw).

(** ** Reading a decoded review back *)

(** [s.split(' ')]: the pieces of [s] between its spaces; a string
    without a space, the empty one too, is its only piece. *)
Fixpoint str_split_space (s : string) : list string :=
  match s with
  | EmptyString => [""]
  | String c s' =>
      if decide (c = Ascii.Space) then "" :: str_split_space s'
      else
        match str_split_space s' with
        | piece :: pieces => String c piece :: pieces
        | [] => [String c ""]
        end
  end.

(** [' ' in s]. *)
Fixpoint has_space (s : string) : bool :=
  match s with
  | EmptyString => false
  | String c s' => bool_decide (c = Ascii.Space) || has_space s'
  end.

(** ** Training history and its reading (source lines 145-160) *)

Module KerasHistory.

(** [History.history], the value of [history.history] after [fit]: a
    series for the loss and for each metric named at [compile], under the
    name given there, followed, when validation data was passed, by the
    same series under the prefix [val_]; each series has one value per
    epoch.  The values are numbers the library computes while it trains:
    [value name epoch] stands for the value of series [name] after pass
    [epoch]. *)
Definition series_names (c : Keras.compile_args) : list string :=
  "loss" :: Keras.metrics c.

Definition history_keys {X Y} (c : Keras.compile_args) (a : Keras.fit_args X Y) :
    list string :=
  series_names c ++
  match Keras.fit_validation_data a with
  | Some _ => (λ name, "val_" +:+ name) <$> series_names c
  | None => []
  end.

Definition history {R X Y} (value : string → nat → R) (c : Keras.compile_args)
    (a : Keras.fit_args X Y) : list (string * list R) :=
  PyDict.of_pairs
    ((λ name, (name, value name <$> seq 0 (Keras.fit_epochs a))) <$> history_keys c a).

(** The data [fit] accepts: at least one training row, as many labels as
    features, and as many validation labels as validation features.  On
    other data it raises before the first pass. *)
Definition fit_data_ok {A B} (a : Keras.fit_args (list A) (list B)) : bool :=
  bool_decide (0 < length (Keras.fit_x a))%nat &&
  bool_decide (length (Keras.fit_x a) = length (Keras.fit_y a)) &&
  match Keras.fit_validation_data a with
  | Some (xv, yv) => bool_decide (length xv = length yv)
  | None => true
  end.


(** [model.fit(...).history]: there is a history only when [fit] ran. *)
Definition fit_history {R A B} (value : string → nat → R) (m : Keras.sequential)
    (a : Keras.fit_args (list A) (list B)) : option (list (string * list R)) :=
  c ← Keras.compiled m;
  if fit_data_ok a then Some (history value c a) else None.

End KerasHistory.

(** ** The numbers a row of [pad_sequences] holds *)

(** The values of [dtype='int32']; token IDs are among them. *)
Definition int32 (t : Z) : Prop := - 2 ^ 31 ≤ t < 2 ^ 31.

Definition int32_rows (data : list (list Z)) : Prop := Forall (Forall int32) data.

(** [range(start, stop)]. *)
Definition py_range (start stop : Z) : list Z := seqZ start (stop - start).

(** What lines 152-160 bind. *)
Record report (R : Type) := Report {
  rep_acc : list R;
  rep_val_acc : list R;
  rep_loss : list R;
  rep_val_loss : list R;
  rep_epochs : list Z;
}.
Arguments Report {R}.
Arguments rep_acc {R}.
Arguments rep_val_acc {R}.
Arguments rep_loss {R}.
Arguments rep_val_loss {R}.
Arguments rep_epochs {R}.

(** Lines 152-160: the four series read from [history_dict] and
    [epochs = range(1, len(acc) + 1)]. *)
Definition read_history {R} (history_dict : list (string * list R)) : result (report R) :=
  let! acc := dict_getitem history_dict "accuracy" in
  let! val_acc := dict_getitem history_dict "val_accuracy" in
  let! loss := dict_getitem history_dict "loss" in
  let! val_loss := dict_getitem history_dict "val_loss" in
  Ok (Report acc val_acc loss val_loss (py_range 1 (Z.of_nat (length acc) + 1))).

(** * Properties *)

(** Closed decidable goals (a list without duplicates, a bound on every
    element, membership in a literal list) are settled by evaluation. *)
Ltac by_evaluation := apply (bool_decide_unpack _); vm_compute; exact I.

(** ** Dictionaries *)

Section dict_facts.
Context {K V : Type} `{EqDecision K}.
Implicit Types (d l : list (K * V)) (k : K) (v : V).

Lemma get_set d k v k' :
  PyDict.get (PyDict.set d k v) k' =
  if decide (k = k') then Some v else PyDict.get d k'.
Proof.
  induction d as [|[k0 v0] d IH]; simpl.
  - repeat case_decide; congruence.
  - destruct (decide (k0 = k)) as [->|Hne]; simpl.
    + repeat case_decide; congruence.
    + rewrite IH. repeat case_decide; congruence.
Qed.

Lemma get_None d k : PyDict.get d k = None ↔ k ∉ PyDict.keys d.
Proof.
  unfold PyDict.keys. induction d as [|[k0 v0] d IH]; simpl.
  - split; [intros _; apply not_elem_of_nil | done].
  - rewrite not_elem_of_cons, <- IH.
    destruct (decide (k0 = k)); intuition congruence.
Qed.

Lemma get_Some_elem d k v : PyDict.get d k = Some v → (k, v) ∈ d.
Proof.
  induction d as [|[k0 v0] d IH]; simpl; [done|].
  case_decide; subst.
  - intros [= ->]. left.
  - intros ?. right. auto.
Qed.

Lemma elem_get d k v : PyDict.wf d → (k, v) ∈ d → PyDict.get d k = Some v.
Proof.
  unfold PyDict.wf, PyDict.keys.
  induction d as [|[k0 v0] d IH]; simpl.
  - intros _ Hin. by apply elem_of_nil in Hin.
  - rewrite NoDup_cons. intros [Hk0 Hnd] Hin.
    apply elem_of_cons in Hin as [[= -> ->]|Hin].
    + by destruct (decide (k0 = k0)).
    + destruct (decide (k0 = k)) as [->|]; [|auto].
      destruct Hk0. apply (list_elem_of_fmap_2 fst) in Hin. done.
Qed.

Lemma set_fresh d k v : k ∉ PyDict.keys d → PyDict.set d k v = d ++ [(k, v)].
Proof.
  unfold PyDict.keys. induction d as [|[k0 v0] d IH]; simpl; [done|].
  rewrite not_elem_of_cons. intros [Hne Hnin].
  destruct (decide (k0 = k)); [congruence|]. by rewrite IH.
Qed.

Lemma keys_set d k v :
  PyDict.keys (PyDict.set d k v) =
  if decide (k ∈ PyDict.keys d) then PyDict.keys d else PyDict.keys d ++ [k].
Proof.
  unfold PyDict.keys. induction d as [|[k0 v0] d IH].
  - destruct (decide (k ∈ [])) as [Hin|]; [|done].
    by apply elem_of_nil in Hin.
  - cbn [PyDict.set]. destruct (decide (k0 = k)) as [->|Hne].
    + destruct (decide (k ∈ ((k, v0) :: d).*1)) as [|Hnin]; [done|].
      destruct Hnin. left.
    + rewrite !fmap_cons, IH. cbn [fst].
      destruct (decide (k ∈ d.*1)) as [Hin|Hnin];
        destruct (decide (k ∈ k0 :: d.*1)) as [Hin'|Hnin']; try done.
      * destruct Hnin'. by right.
      * apply elem_of_cons in Hin' as [?|?]; congruence.
Qed.

Lemma wf_set d k v : PyDict.wf d → PyDict.wf (PyDict.set d k v).
Proof.
  unfold PyDict.wf. rewrite keys_set. case_decide; [done|].
  intros Hnd. apply NoDup_app. split_and!; [done | | apply NoDup_singleton].
  intros x Hx Hx'. apply list_elem_of_singleton in Hx'. by subst.
Qed.

Lemma elem_set d k v kv : kv ∈ PyDict.set d k v → kv ∈ d ∨ kv = (k, v).
Proof.
  induction d as [|[k0 v0] d IH]; simpl.
  - intros Hin. apply list_elem_of_singleton in Hin. by right.
  - case_decide; subst; rewrite !elem_of_cons.
    + intros [->|?]; [by right | left; by right].
    + intros [->|Hin]; [left; by left|].
      destruct (IH Hin); [left; by right | by right].
Qed.

Lemma wf_foldl_set d l :
  PyDict.wf d → PyDict.wf (foldl (λ d kv, PyDict.set d kv.1 kv.2) d l).
Proof.
  revert d. induction l as [|[k v] l IH]; simpl; [done|].
  intros d Hd. apply IH. by apply wf_set.
Qed.

Lemma wf_of_pairs l : PyDict.wf (PyDict.of_pairs l).
Proof. apply wf_foldl_set. apply NoDup_nil_2. Qed.

Lemma elem_foldl_set d l kv :
  kv ∈ foldl (λ d kv, PyDict.set d kv.1 kv.2) d l → kv ∈ d ∨ kv ∈ l.
Proof.
  revert d. induction l as [|[k v] l IH]; simpl; [by left|].
  intros d Hin. destruct (IH _ Hin) as [Hin'|Hin']; [|right; by right].
  destruct (elem_set _ _ _ _ Hin') as [?| ->]; [by left | right; left].
Qed.

Lemma elem_of_pairs l kv : kv ∈ PyDict.of_pairs l → kv ∈ l.
Proof.
  intros Hin. destruct (elem_foldl_set _ _ _ Hin) as [Hin'|]; [|done].
  by apply elem_of_nil in Hin'.
Qed.

Lemma foldl_set_fresh d l :
  PyDict.wf (d ++ l) → foldl (λ d kv, PyDict.set d kv.1 kv.2) d l = d ++ l.
Proof.
  unfold PyDict.wf, PyDict.keys.
  revert d. induction l as [|[k v] l IH]; simpl; intros d Hnd.
  - by rewrite app_nil_r.
  - rewrite set_fresh.
    + rewrite IH; rewrite <- app_assoc; done.
    + rewrite fmap_app in Hnd. apply NoDup_app in Hnd as (_ & Hd & _).
      intros Hin. apply (Hd k Hin). left.
Qed.

(** A list of pairs with distinct keys is its own dictionary. *)
Lemma of_pairs_wf l : PyDict.wf l → PyDict.of_pairs l = l.
Proof. intros Hl. unfold PyDict.of_pairs. by rewrite foldl_set_fresh. Qed.
End dict_facts.

(** ** Vocabulary mapping *)

Section dict_order.
Context {K V : Type} `{EqDecision K}.
Implicit Types (d l : list (K * V)) (k : K) (v : V).

Lemma get_app d l k :
  PyDict.get (d ++ l) k =
  match PyDict.get d k with Some v => Some v | None => PyDict.get l k end.
Proof.
  induction d as [|[k0 v0] d IH]; simpl; [done|].
  by destruct (decide (k0 = k)).
Qed.

(** Storing pairs one after the other: the last pair of a key wins. *)
Lemma get_foldl_set d l k :
  PyDict.get (foldl (λ d kv, PyDict.set d kv.1 kv.2) d l) k =
  match PyDict.get (reverse l) k with Some v => Some v | None => PyDict.get d k end.
Proof.
  revert d. induction l as [|[k0 v0] l IH]; intros d; simpl; [done|].
  rewrite IH, reverse_cons, get_app, get_set. simpl.
  destruct (PyDict.get (reverse l) k); [done|].
  by destruct (decide (k0 = k)).
Qed.

Lemma get_of_pairs l k : PyDict.get (PyDict.of_pairs l) k = PyDict.get (reverse l) k.
Proof.
  unfold PyDict.of_pairs. rewrite get_foldl_set.
  by destruct (PyDict.get (reverse l) k).
Qed.

(** A key all of whose pairs carry the same value is stored with it. *)
Lemma get_of_pairs_unique l k v :
  (k, v) ∈ l → (∀ v', (k, v') ∈ l → v' = v) →
  PyDict.get (PyDict.of_pairs l) k = Some v.
Proof.
  intros Hin Huniq. rewrite get_of_pairs.
  destruct (PyDict.get (reverse l) k) as [v'|] eqn:Hget.
  - apply get_Some_elem in Hget. rewrite elem_of_reverse in Hget.
    f_equal. auto.
  - apply get_None in Hget. destruct Hget.
    apply (list_elem_of_fmap_2 fst (reverse l) (k, v)). by rewrite elem_of_reverse.
Qed.

(** A dictionary that never repeats a value, read through lookups. *)
Lemma values_NoDup d :
  PyDict.wf d →
  (∀ k1 k2 v, PyDict.get d k1 = Some v → PyDict.get d k2 = Some v → k1 = k2) →
  NoDup (PyDict.values d).
Proof.
  intros Hwf Hinj. unfold PyDict.values.
  apply NoDup_fmap_2_strong; [|by apply (NoDup_fmap_1 fst)].
  intros [k1 v1] [k2 v2] H1 H2 Heq. simpl in Heq. subst v2.
  f_equal. eapply Hinj; by apply elem_get.
Qed.
End dict_order.

Section dict_values.
Context {K V W : Type} `{EqDecision K}.

Lemma keys_fmap_values (f : V → W) (d : list (K * V)) :
  PyDict.keys ((λ kv, (kv.1, f kv.2)) <$> d) = PyDict.keys d.
Proof.
  unfold PyDict.keys. rewrite <- list_fmap_compose. by apply list_fmap_ext.
Qed.

Lemma get_fmap_values (f : V → W) (d : list (K * V)) k :
  PyDict.get ((λ kv, (kv.1, f kv.2)) <$> d) k = f <$> PyDict.get d k.
Proof.
  induction d as [|[k0 v0] d IH]; simpl; [done|].
  by destruct (decide (k0 = k)).
Qed.

(** In a dictionary that never repeats a value, a value has one key. *)
Lemma values_NoDup_inj (d : list (K * V)) k1 k2 v :
  NoDup (PyDict.values d) →
  PyDict.get d k1 = Some v → PyDict.get d k2 = Some v → k1 = k2.
Proof.
  unfold PyDict.values. intros Hnd H1 H2.
  apply get_Some_elem, list_elem_of_lookup in H1 as [i Hi].
  apply get_Some_elem, list_elem_of_lookup in H2 as [j Hj].
  assert (i = j) as ->.
  { eapply NoDup_lookup; [done| |]; rewrite list_lookup_fmap.
    - by rewrite Hi.
    - by rewrite Hj. }
  congruence.
Qed.
End dict_values.

Lemma control_id_range w c : control_id w = Some c → 0 ≤ c ≤ 3.
Proof.
  unfold control_id, control_tokens. simpl.
  repeat case_decide; intros [= <-]; lia.
Qed.

Lemma control_id_inj w1 w2 c :
  control_id w1 = Some c → control_id w2 = Some c → w1 = w2.
Proof.
  unfold control_id, control_tokens. simpl.
  repeat case_decide; intros [= <-]; intros [=]; congruence.
Qed.

Lemma shift_ids_wf raw :
  PyDict.wf raw → shift_ids raw = (λ kv, (kv.1, kv.2 + 3)) <$> raw.
Proof.
  intros Hwf. unfold shift_ids, PyDict.items. apply of_pairs_wf.
  unfold PyDict.wf. by rewrite (keys_fmap_values (λ v, v + 3)).
Qed.

Lemma get_shift_ids raw w :
  PyDict.wf raw → PyDict.get (shift_ids raw) w = (λ v, v + 3) <$> PyDict.get raw w.
Proof.
  intros Hwf. rewrite shift_ids_wf by done.
  apply (get_fmap_values (λ v, v + 3)).
Qed.

(** Reading the vocabulary: a control token has its fixed ID, whatever the
    raw map holds for it; any other word has its raw ID plus 3. *)
Lemma get_word_index raw w :
  PyDict.wf raw →
  PyDict.get (word_index raw) w =
  match control_id w with
  | Some c => Some c
  | None => (λ v, v + 3) <$> PyDict.get raw w
  end.
Proof.
  intros Hwf. unfold word_index. cbv zeta.
  rewrite !get_set, get_shift_ids by done.
  unfold control_id, control_tokens. simpl.
  repeat case_decide; subst; done.
Qed.

Lemma wf_word_index raw : PyDict.wf (word_index raw).
Proof.
  unfold word_index. cbv zeta. repeat apply wf_set. apply wf_of_pairs.
Qed.

(** Every entry of the inverse map is an entry of the vocabulary, turned
    around. *)
Lemma reverse_word_index_sound raw i w :
  PyDict.get (reverse_word_index raw) i = Some w →
  PyDict.get (word_index raw) w = Some i.
Proof.
  intros Hget. apply get_Some_elem, elem_of_pairs in Hget.
  apply list_elem_of_fmap in Hget as ([w' i'] & [= -> ->] & Hin).
  apply elem_get; [apply wf_word_index | done].
Qed.

Lemma raw_rank_ge_1 (raw : list (string * Z)) w v :
  Forall (λ v, 1 ≤ v) (PyDict.values raw) → PyDict.get raw w = Some v → 1 ≤ v.
Proof.
  intros Hall Hget. rewrite Forall_forall in Hall. apply Hall.
  apply get_Some_elem in Hget. by apply (list_elem_of_fmap_2 snd) in Hget.
Qed.

Lemma word_index_inj raw w1 w2 i :
  frequency_ranked raw →
  PyDict.get (word_index raw) w1 = Some i →
  PyDict.get (word_index raw) w2 = Some i → w1 = w2.
Proof.
  intros (Hwf & Hnd & Hge). rewrite !get_word_index by done.
  destruct (control_id w1) as [c1|] eqn:Hc1;
    destruct (control_id w2) as [c2|] eqn:Hc2.
  - intros [= ->] [= ->]. by eapply control_id_inj.
  - intros [= ->]. destruct (PyDict.get raw w2) as [v|] eqn:Hv; [|done].
    intros [= <-]. apply control_id_range in Hc1.
    pose proof (raw_rank_ge_1 _ _ _ Hge Hv). lia.
  - destruct (PyDict.get raw w1) as [v|] eqn:Hv; [|done].
    intros [= <-] [= Heq]. apply control_id_range in Hc2.
    pose proof (raw_rank_ge_1 _ _ _ Hge Hv). lia.
  - destruct (PyDict.get raw w1) as [v1|] eqn:Hv1; [|done].
    destruct (PyDict.get raw w2) as [v2|] eqn:Hv2; [|done].
    intros [= <-] [= Heq]. assert (v2 = v1) as -> by lia.
    by eapply values_NoDup_inj.
Qed.

Lemma reverse_word_index_pairs raw :
  frequency_ranked raw →
  reverse_word_index raw = swap_pair <$> word_index raw.
Proof.
  intros Hraw. unfold reverse_word_index, PyDict.items. apply of_pairs_wf.
  unfold PyDict.wf, PyDict.keys. rewrite <- list_fmap_compose.
  apply (values_NoDup (word_index raw)); [apply wf_word_index|].
  intros w1 w2 i. by apply word_index_inj.
Qed.

Lemma reverse_word_index_complete raw w i :
  frequency_ranked raw →
  PyDict.get (word_index raw) w = Some i →
  PyDict.get (reverse_word_index raw) i = Some w.
Proof.
  intros Hraw Hget. apply elem_get; [apply wf_of_pairs|].
  rewrite reverse_word_index_pairs by done.
  apply get_Some_elem in Hget. by apply (list_elem_of_fmap_2 swap_pair) in Hget.
Qed.

Example word_index_small :
  word_index [("the", 1); ("and", 2)] =
  [("the", 4); ("and", 5); ("<PAD>", 0); ("<START>", 1); ("<UNK>", 2); ("<UNUSED>", 3)].
Proof. reflexivity. Qed.

Example reverse_word_index_small :
  reverse_word_index [("the", 1); ("and", 2)] =
  [(4, "the"); (5, "and"); (0, "<PAD>"); (1, "<START>"); (2, "<UNK>"); (3, "<UNUSED>")].
Proof. reflexivity. Qed.

(** Two words of one rank: the inverse map keeps the later one only. *)
Example reverse_word_index_shared_rank :
  reverse_word_index [("the", 1); ("and", 1)] =
  [(4, "and"); (0, "<PAD>"); (1, "<START>"); (2, "<UNK>"); (3, "<UNUSED>")].
Proof. reflexivity. Qed.

Lemma control_id_None w :
  w ∉ PyDict.keys control_tokens → control_id w = None.
Proof. intros Hw. by apply get_None. Qed.

Lemma control_id_Some w c : (w, c) ∈ control_tokens → control_id w = Some c.
Proof.
  intros Hin. apply elem_get; [|done].
  unfold PyDict.wf. by_evaluation.
Qed.

Lemma keys_shift_ids raw : PyDict.wf raw → PyDict.keys (shift_ids raw) = PyDict.keys raw.
Proof.
  intros Hwf. rewrite shift_ids_wf by done. apply (keys_fmap_values (λ v, v + 3)).
Qed.

Lemma values_shift_ids raw :
  PyDict.wf raw → PyDict.values (shift_ids raw) = (λ v, v + 3) <$> PyDict.values raw.
Proof.
  intros Hwf. rewrite shift_ids_wf by done. unfold PyDict.values.
  rewrite <- !list_fmap_compose. by apply list_fmap_ext.
Qed.

Lemma set_fresh_app {K V} `{EqDecision K} (d l : list (K * V)) k v :
  k ∉ PyDict.keys d → k ∉ PyDict.keys l →
  PyDict.set (d ++ l) k v = d ++ l ++ [(k, v)].
Proof.
  intros Hd Hl. rewrite set_fresh, <- app_assoc; [done|].
  unfold PyDict.keys in *. rewrite fmap_app, not_elem_of_app. done.
Qed.

(** A raw map without the control strings: the four assignments append. *)
Lemma word_index_append raw :
  PyDict.wf raw →
  (∀ w, w ∈ PyDict.keys control_tokens → w ∉ PyDict.keys raw) →
  word_index raw = shift_ids raw ++ control_tokens.
Proof.
  intros Hwf Hfresh.
  assert (Hk : ∀ w, w ∈ PyDict.keys control_tokens → w ∉ PyDict.keys (shift_ids raw)).
  { intros w Hw. rewrite keys_shift_ids by done. auto. }
  unfold word_index. cbv zeta.
  rewrite (set_fresh (shift_ids raw) "<PAD>").
  2:{ apply Hk. by_evaluation. }
  rewrite (set_fresh_app (shift_ids raw) [("<PAD>", 0)] "<START>").
  2:{ apply Hk. by_evaluation. }
  2:{ by_evaluation. }
  rewrite (set_fresh_app (shift_ids raw) _ "<UNK>").
  2:{ apply Hk. by_evaluation. }
  2:{ by_evaluation. }
  rewrite (set_fresh_app (shift_ids raw) _ "<UNUSED>").
  2:{ apply Hk. by_evaluation. }
  2:{ by_evaluation. }
  done.
Qed.

(** C3, as stated, fails on a frequency-ranked raw map that has a
    control string as a word: with ["<PAD>"] at rank 1 the vocabulary has
    four entries, not one shifted entry plus four inserted ones, and the
    raw word is at ID 0, not at 1 + 3. *)
Lemma C3_counterexample :
  let raw := [("<PAD>", 1)] in
  frequency_ranked raw ∧
  word_index raw = [("<PAD>", 0); ("<START>", 1); ("<UNK>", 2); ("<UNUSED>", 3)] ∧
  length (word_index raw) ≠ (length raw + 4)%nat ∧
  PyDict.get raw "<PAD>" = Some 1 ∧
  PyDict.get (word_index raw) "<PAD>" ≠ Some (1 + 3).
Proof.
  intros raw. split_and!.
  - unfold frequency_ranked, PyDict.wf. split_and!; by_evaluation.
  - reflexivity.
  - vm_compute. lia.
  - reflexivity.
  - vm_compute. discriminate.
Qed.

(** C3, amended: for the frequency-ranked map the collaborator provides,
    the word-to-ID vocabulary holds the four control entries <PAD>=0,
    <START>=1, <UNK>=2, <UNUSED>=3 and gives every other word of the raw
    map its raw ID plus 3 (a word absent from the raw map stays absent);
    when none of the four control strings is a word of the raw map, the
    vocabulary is the raw map with every ID incremented by 3 followed by
    exactly the four control entries; the ID-to-word map is the list of
    the reversed (word, ID) pairs, and it is the inverse of the
    vocabulary. *)
Theorem C3_vocabulary_maps (raw : list (string * Z)) :
  frequency_ranked raw →
  (∀ w c, (w, c) ∈ control_tokens → PyDict.get (word_index raw) w = Some c) ∧
  (∀ w, w ∉ PyDict.keys control_tokens →
        PyDict.get (word_index raw) w = (λ v, v + 3) <$> PyDict.get raw w) ∧
  ((∀ w, w ∈ PyDict.keys control_tokens → w ∉ PyDict.keys raw) →
   word_index raw = ((λ kv, (kv.1, kv.2 + 3)) <$> raw) ++ control_tokens ∧
   length (word_index raw) = (length raw + 4)%nat) ∧
  reverse_word_index raw = swap_pair <$> word_index raw ∧
  (∀ w i, PyDict.get (word_index raw) w = Some i ↔
          PyDict.get (reverse_word_index raw) i = Some w).
Proof.
  intros Hraw. pose proof Hraw as (Hwf & _ & _). split_and!.
  - intros w c Hin. by rewrite get_word_index, (control_id_Some w c).
  - intros w Hw. by rewrite get_word_index, control_id_None.
  - intros Hfresh. rewrite word_index_append, shift_ids_wf by done.
    split; [done|]. rewrite length_app, length_fmap. reflexivity.
  - by apply reverse_word_index_pairs.
  - intros w i. split.
    + by apply reverse_word_index_complete.
    + apply reverse_word_index_sound.
Qed.

Lemma C3_vocabulary_maps_witness :
  let raw := [("the", 1); ("and", 2); ("a", 3)] in
  frequency_ranked raw ∧
  PyDict.get (word_index raw) "and" = Some 5 ∧
  word_index raw =
    [("the", 4); ("and", 5); ("a", 6);
     ("<PAD>", 0); ("<START>", 1); ("<UNK>", 2); ("<UNUSED>", 3)] ∧
  reverse_word_index raw = swap_pair <$> word_index raw.
Proof.
  intros raw.
  assert (Hraw : frequency_ranked raw).
  { unfold frequency_ranked, PyDict.wf. split_and!.
    - by_evaluation.
    - by_evaluation.
    - by_evaluation. }
  destruct (C3_vocabulary_maps raw Hraw) as (_ & Hword & Happ & Hrev & _).
  split_and!; [exact Hraw | | | exact Hrev].
  - rewrite Hword; [reflexivity|]. by_evaluation.
  - destruct Happ as [-> _]; [|reflexivity].
    intros w Hw. unfold control_tokens, PyDict.keys in Hw. simpl in Hw.
    repeat (apply elem_of_cons in Hw as [->|Hw]; [by_evaluation|]).
    by apply elem_of_nil in Hw.
Defined.

(** ** Decoding *)

Example decode_small :
  decode_review (reverse_word_index [("the", 1); ("and", 2)]) [1; 4; 5; 2; 77] =
  "<START> the and <UNK> ?".
Proof. reflexivity. Qed.

(** A review decoded with a one-word vocabulary. *)
Example decode_scenario :
  decode_review (reverse_word_index [("the", 1)]) [1; 14; 22; 16; 43; 2; 2; 4] =
  "<START> ? ? ? ? <UNK> <UNK> the".
Proof. reflexivity. Qed.

Lemma string_length_app (s t : string) :
  String.length (s +:+ t) = (String.length s + String.length t)%nat.
Proof.
  induction s as [|a s IH]; [done|].
  change (String a s +:+ t) with (String a (s +:+ t)). simpl. by rewrite IH.
Qed.

(** A joined string has the characters of its parts and one separator
    between two neighbours. *)
Lemma str_join_length (sep : string) (parts : list string) :
  String.length (str_join sep parts) =
  (sum_list_with String.length parts + (length parts - 1) * String.length sep)%nat.
Proof.
  unfold str_join. induction parts as [|p [|q parts] IH].
  - done.
  - simpl. lia.
  - change (String.concat sep (p :: q :: parts))
      with (p +:+ sep +:+ String.concat sep (q :: parts)).
    rewrite !string_length_app, IH. simpl. lia.
Qed.

Lemma decode_fields_length rwi text :
  length (decode_fields rwi text) = length text.
Proof. unfold decode_fields. by rewrite length_fmap. Qed.

(** C4: for every sequence of IDs, [decode_review] returns the fields of
    the sequence joined by single spaces, one field per ID and in order:
    the word of the ID in the inverse map, or the one character [?] for
    an ID absent from it.  The function is total: no input makes it
    raise, and it reads the inverse map without changing it. *)
Theorem C4_decode_review_fields (rwi : list (Z * string)) (text : list Z) :
  ∃ fields : list string,
    decode_review rwi text = str_join " " fields ∧
    length fields = length text ∧
    Forall2 (λ i field,
      field = match PyDict.get rwi i with Some w => w | None => "?" end)
      text fields ∧
    String.length (decode_review rwi text) =
      (sum_list_with String.length fields + (length text - 1))%nat.
Proof.
  exists (decode_fields rwi text). split_and!.
  - done.
  - apply decode_fields_length.
  - unfold decode_fields. apply Forall2_fmap_r, Forall_Forall2_diag, Forall_forall.
    intros i _. simpl. unfold PyDict.get_default.
    by destruct (PyDict.get rwi i).
  - unfold decode_review. rewrite str_join_length, decode_fields_length.
    simpl. lia.
Qed.

(** C9: on the empty sequence of IDs [decode_review] returns the empty
    string, whatever the inverse map holds. *)
Theorem C9_decode_review_empty (rwi : list (Z * string)) :
  decode_review rwi [] = "".
Proof. reflexivity. Qed.

Lemma encode_decode_fields raw text :
  Forall (λ i, is_Some (PyDict.get (reverse_word_index raw) i)) text →
  rmap_list (dict_getitem (word_index raw))
    (decode_fields (reverse_word_index raw) text) = Ok text.
Proof.
  induction 1 as [|i text [w Hw] _ IH]; [done|].
  simpl. unfold PyDict.get_default, dict_getitem at 1. rewrite Hw. simpl.
  rewrite (reverse_word_index_sound _ _ _ Hw). simpl.
  by rewrite IH.
Qed.

Lemma str_join_cons sep p q parts :
  str_join sep (p :: q :: parts) = p +:+ sep +:+ str_join sep (q :: parts).
Proof. reflexivity. Qed.

Example str_split_space_small :
  str_split_space "a b" = ["a"; "b"] ∧ str_split_space "" = [""] ∧
  str_split_space " a  " = [""; "a"; ""; ""].
Proof. by vm_compute. Qed.

Lemma str_split_space_word (w : string) :
  has_space w = false → str_split_space w = [w].
Proof.
  induction w as [|c w IH]; [done|]. simpl.
  intros [Hc Hw]%orb_false_elim. apply bool_decide_eq_false in Hc.
  rewrite decide_False by done. by rewrite IH.
Qed.

Lemma str_split_space_cons (w rest : string) :
  has_space w = false →
  str_split_space (w +:+ " " +:+ rest) = w :: str_split_space rest.
Proof.
  induction w as [|c w IH]; [done|]. simpl.
  intros [Hc Hw]%orb_false_elim. apply bool_decide_eq_false in Hc.
  change (String c w +:+ " " +:+ rest) with (String c (w +:+ " " +:+ rest)).
  simpl. rewrite decide_False by done. by rewrite IH.
Qed.

(** Splitting at the spaces undoes the join of words without spaces,
    when there is a word at all. *)
Lemma str_split_space_join (words : list string) :
  words ≠ [] →
  Forall (λ w, has_space w = false) words →
  str_split_space (str_join " " words) = words.
Proof.
  intros Hne Hwords. induction Hwords as [|w [|w' words] Hw Hwords IH]; [done| |].
  - by apply str_split_space_word.
  - rewrite str_join_cons, str_split_space_cons by done. by rewrite IH.
Qed.

(** C5, as stated, fails when a word of the vocabulary holds a space: with
    the words [a], [b] and [a b] the reviews of IDs [4; 5] and [6] are
    decoded to one and the same string, and its words are re-encoded to
    [4; 5], which is not the review [6]. *)
Lemma C5_counterexample :
  let raw := [("a", 1); ("b", 2); ("a b", 3)] in
  let rwi := reverse_word_index raw in
  frequency_ranked raw ∧
  Forall (λ i, is_Some (PyDict.get rwi i)) [6] ∧
  Forall (λ i, is_Some (PyDict.get rwi i)) [4; 5] ∧
  decode_review rwi [6] = "a b" ∧
  decode_review rwi [4; 5] = "a b" ∧
  rmap_list (dict_getitem (word_index raw)) (str_split_space (decode_review rwi [6])) =
    Ok [4; 5].
Proof.
  intros raw rwi. split_and!.
  - unfold frequency_ranked, PyDict.wf. split_and!; by_evaluation.
  - by_evaluation.
  - by_evaluation.
  - reflexivity.
  - reflexivity.
  - reflexivity.
Qed.

(** C5, amended: for every non-empty sequence of IDs whose words are all
    present in the vocabulary map and hold no space, decoding the
    sequence with [decode_review], splitting the string at its spaces and
    re-encoding each resulting word through the word-to-ID map returns
    the original ID sequence.  (For any sequence of IDs with words in the
    map, the words [decode_review] joins re-encode to the sequence.) *)
Theorem C5_decode_encode_roundtrip (raw : list (string * Z)) (text : list Z) :
  Forall (λ i, is_Some (PyDict.get (reverse_word_index raw) i)) text →
  (∃ words : list string,
     Forall2 (λ i w, PyDict.get (reverse_word_index raw) i = Some w) text words ∧
     decode_review (reverse_word_index raw) text = str_join " " words ∧
     rmap_list (dict_getitem (word_index raw)) words = Ok text) ∧
  (text ≠ [] →
   Forall (λ i, ∀ w, PyDict.get (reverse_word_index raw) i = Some w →
                     has_space w = false) text →
   rmap_list (dict_getitem (word_index raw))
     (str_split_space (decode_review (reverse_word_index raw) text)) = Ok text).
Proof.
  intros Hknown.
  assert (Hfields : Forall2 (λ i w, PyDict.get (reverse_word_index raw) i = Some w)
            text (decode_fields (reverse_word_index raw) text)).
  { unfold decode_fields. apply Forall2_fmap_r, Forall_Forall2_diag.
    eapply Forall_impl; [exact Hknown|]. intros i [w Hw]. simpl.
    unfold PyDict.get_default. by rewrite Hw. }
  split.
  - exists (decode_fields (reverse_word_index raw) text).
    split_and!; [done | done | by apply encode_decode_fields].
  - intros Hne Hspace. unfold decode_review.
    rewrite str_split_space_join; [by apply encode_decode_fields | |].
    + unfold decode_fields. by destruct text.
    + unfold decode_fields. apply Forall_fmap, Forall_forall. intros i Hi.
      rewrite Forall_forall in Hknown, Hspace.
      destruct (Hknown i Hi) as [w Hw]. simpl.
      unfold PyDict.get_default. rewrite Hw. simpl. by apply (Hspace i Hi).
Qed.

Lemma C5_decode_encode_roundtrip_witness :
  let raw := [("the", 1); ("and", 2)] in
  rmap_list (dict_getitem (word_index raw))
    (str_split_space (decode_review (reverse_word_index raw) [1; 4; 5; 5; 2])) =
  Ok [1; 4; 5; 5; 2].
Proof.
  intros raw.
  destruct (C5_decode_encode_roundtrip raw [1; 4; 5; 5; 2]) as [_ Hstring].
  - by_evaluation.
  - apply Hstring; [discriminate|].
    repeat (apply Forall_cons; split;
      [intros w Hw; vm_compute in Hw; injection Hw as <-; reflexivity|]).
    apply Forall_nil_2.
Defined.

(** ** The control entries and the shifted words *)

(** C10, as stated, fails on a raw map that has a control string as a
    word: with ["<PAD>"] at rank 1, all raw values are at least 1, yet the
    assignment of line 37 overwrites the shifted entry and the word ends
    with ID 0, not 1 + 3. *)
Lemma C10_counterexample :
  let raw := [("<PAD>", 1)] in
  PyDict.wf raw ∧ Forall (λ v, 1 ≤ v) (PyDict.values raw) ∧
  PyDict.get raw "<PAD>" = Some 1 ∧
  PyDict.get (word_index raw) "<PAD>" = Some 0 ∧
  PyDict.get (word_index raw) "<PAD>" ≠ Some (1 + 3).
Proof.
  intros raw. split_and!.
  - by_evaluation.
  - by_evaluation.
  - reflexivity.
  - reflexivity.
  - vm_compute. discriminate.
Qed.

(** C10, amended: for any raw word-to-ID map whose values are all at
    least 1, after the shift by 3 no word has an ID in {0, 1, 2, 3};
    every original word other than the four control strings stays in the
    map with its ID increased by exactly 3; and when no control string is
    a word of the raw map, the four assignments overwrite nothing: the
    control entries are appended to the shifted entries. *)
Theorem C10_control_entries (raw : list (string * Z)) :
  PyDict.wf raw →
  Forall (λ v, 1 ≤ v) (PyDict.values raw) →
  Forall (λ v, 4 ≤ v) (PyDict.values (shift_ids raw)) ∧
  (∀ w v, PyDict.get raw w = Some v → w ∉ PyDict.keys control_tokens →
          PyDict.get (word_index raw) w = Some (v + 3)) ∧
  ((∀ w, w ∈ PyDict.keys control_tokens → w ∉ PyDict.keys raw) →
   word_index raw = shift_ids raw ++ control_tokens).
Proof.
  intros Hwf Hge. split_and!.
  - rewrite values_shift_ids by done. apply Forall_fmap.
    eapply Forall_impl; [exact Hge|]. intros v Hv. unfold compose. simpl in Hv. lia.
  - intros w v Hget Hw. by rewrite get_word_index, control_id_None, Hget.
  - by apply word_index_append.
Qed.

Lemma C10_control_entries_witness :
  let raw := [("the", 1); ("and", 2)] in
  Forall (λ v, 4 ≤ v) (PyDict.values (shift_ids raw)) ∧
  PyDict.get (word_index raw) "and" = Some (2 + 3) ∧
  word_index raw = shift_ids raw ++ control_tokens.
Proof.
  intros raw.
  assert (Hwf : PyDict.wf raw) by by_evaluation.
  assert (Hge : Forall (λ v, 1 ≤ v) (PyDict.values raw))
    by by_evaluation.
  destruct (C10_control_entries raw Hwf Hge) as (Hshift & Hword & Happ).
  split_and!.
  - exact Hshift.
  - apply Hword; [reflexivity|]. by_evaluation.
  - apply Happ. intros w Hw.
    unfold control_tokens, PyDict.keys in Hw. simpl in Hw.
    repeat (apply elem_of_cons in Hw as [->|Hw]; [by_evaluation|]).
    by apply elem_of_nil in Hw.
Defined.

(** ** Slices and padding *)

Lemma slice_to_nat {A} (n : nat) (l : list A) : slice_to (Z.of_nat n) l = take n l.
Proof.
  unfold slice_to, slice_index. rewrite decide_False by lia.
  rewrite Nat2Z.id. destruct (decide (n ≤ length l)%nat).
  - by rewrite Nat.min_l.
  - rewrite Nat.min_r by lia. by rewrite !take_ge by lia.
Qed.

Lemma slice_from_nat {A} (n : nat) (l : list A) : slice_from (Z.of_nat n) l = drop n l.
Proof.
  unfold slice_from, slice_index. rewrite decide_False by lia.
  rewrite Nat2Z.id. destruct (decide (n ≤ length l)%nat).
  - by rewrite Nat.min_l.
  - rewrite Nat.min_r by lia. by rewrite !drop_ge by lia.
Qed.

(** [l[-n:]] for a positive [n]: the last [n] elements, all of [l] when
    it has fewer. *)
Lemma slice_from_neg {A} (n : nat) (l : list A) :
  (0 < n)%nat → slice_from (- Z.of_nat n) l = drop (length l - n) l.
Proof.
  intros Hn. unfold slice_from, slice_index. rewrite decide_True by lia.
  f_equal. lia.
Qed.

Lemma rmap_list_Ok {A B} (f : A → result B) (g : A → B) (l : list A) :
  (∀ a, f a = Ok (g a)) → rmap_list f l = Ok (g <$> l).
Proof.
  intros Hf. induction l as [|a l IH]; [done|].
  simpl. by rewrite Hf, IH.
Qed.

Lemma truncate_length maxlen truncating s :
  (0 < maxlen)%nat →
  length (Keras.truncate maxlen truncating s) = (length s `min` maxlen)%nat.
Proof.
  intros Hn. destruct truncating; simpl.
  - rewrite slice_from_neg, length_drop by done. lia.
  - rewrite slice_to_nat, length_take. lia.
Qed.

(** A row for a positive [maxlen] and padding at the end: the truncated
    sequence, then the pad value up to [maxlen]. *)
Lemma pad_row_post maxlen truncating value s :
  (0 < maxlen)%nat →
  Keras.pad_row maxlen Keras.post truncating value s =
  Ok (Keras.truncate maxlen truncating s ++ replicate (maxlen - length s) value).
Proof.
  intros Hn. unfold Keras.pad_row.
  pose proof (truncate_length maxlen truncating s Hn) as Hlen.
  destruct s as [|x s].
  - simpl in Hlen. apply nil_length_inv in Hlen. rewrite Hlen. simpl.
    by rewrite Nat.sub_0_r.
  - rewrite decide_True by lia. do 2 f_equal. rewrite Hlen. f_equal. lia.
Qed.

Lemma word_index_PAD raw : dict_getitem (word_index raw) "<PAD>" = Ok 0.
Proof.
  unfold dict_getitem, word_index. cbv zeta. rewrite !get_set.
  repeat case_decide; done.
Qed.

(** The row lines 68-71 make of a sequence. *)
Lemma normalize_rows raw data :
  normalize (word_index raw) data =
  Ok ((λ s, drop (length s - 256) s ++ replicate (256 - length s) 0) <$> data).
Proof.
  unfold normalize. rewrite word_index_PAD. simpl.
  apply rmap_list_Ok. intros s. rewrite pad_row_post by lia.
  unfold Keras.default_truncating. simpl.
  by rewrite (slice_from_neg 256) by lia.
Qed.

(** The same call with [truncating='post'] would keep the first tokens. *)
Lemma pad_row_post_post value s :
  Keras.pad_row 256 Keras.post Keras.post value s =
  Ok (take 256 s ++ replicate (256 - length s) value).
Proof. rewrite pad_row_post by lia. simpl. by rewrite (slice_to_nat 256). Qed.

Example normalize_short :
  normalize (word_index []) [[1; 14; 22]; []] =
  Ok [[1; 14; 22] ++ replicate 253 0; replicate 256 0].
Proof. by vm_compute. Qed.

Example normalize_long :
  normalize (word_index []) [Z.of_nat <$> seq 0 300] = Ok [Z.of_nat <$> seq 44 256].
Proof. by vm_compute. Qed.

(** ** The script *)

Lemma rbind_Ok {A B} (m : result A) (k : A → result B) (b : B) :
  rbind m k = Ok b → ∃ a, m = Ok a ∧ k a = Ok b.
Proof. destruct m as [a|e]; simpl; [eauto | discriminate]. Qed.

(** A run of the script that reaches its end went through every stage. *)
Lemma script_Ok raw ds o :
  script raw ds = Ok o →
  ∃ first train test,
    list_getitem (train_data ds) 0 = Ok first ∧
    normalize (word_index raw) (train_data ds) = Ok train ∧
    normalize (word_index raw) (test_data ds) = Ok test ∧
    o = Outcome (word_index raw) (reverse_word_index raw)
          (decode_review (reverse_word_index raw) first) train test compiled_model
          (x_val train) (partial_x_train train)
          (y_val (train_labels ds)) (partial_y_train (train_labels ds))
          (fit_call train (train_labels ds)).
Proof.
  unfold script. intros Hrun.
  apply rbind_Ok in Hrun as (_ & _ & Hrun).
  apply rbind_Ok in Hrun as (first & Hfirst & Hrun).
  apply rbind_Ok in Hrun as (train & Htrain & Hrun).
  apply rbind_Ok in Hrun as (test & Htest & Hrun).
  apply rbind_Ok in Hrun as (_ & _ & Hrun).
  apply rbind_Ok in Hrun as (_ & _ & Hrun).
  injection Hrun as <-. by exists first, train, test.
Qed.

(** ** Sequence normalization *)

(** C2, as stated, fails: of a sequence of 300 tokens, token [i] at
    position [i], the normalized row holds the tokens 44 to 299, not the
    first 256; position 299 of the input is read at position 255 of the
    row. *)
Lemma C2_counterexample :
  let s := Z.of_nat <$> seq 0 300 in
  (256 < length s)%nat ∧
  normalize (word_index []) [s] = Ok [Z.of_nat <$> seq 44 256] ∧
  normalize (word_index []) [s] ≠ Ok [take 256 s] ∧
  s !! 299%nat = Some 299 ∧
  (Z.of_nat <$> seq 44 256) !! 255%nat = Some 299.
Proof.
  intros s. split_and!.
  - vm_compute. lia.
  - by vm_compute.
  - vm_compute. discriminate.
  - reflexivity.
  - reflexivity.
Qed.

(** C2, amended: for every input sequence longer than 256 tokens,
    sequence normalization truncates from the beginning and keeps exactly
    the last 256 tokens; the normalized sequences hold no information from
    the positions before these: another long sequence with the same last
    256 tokens in its place gives the same result. *)
Theorem C2_truncation_keeps_last (raw : list (string * Z)) (data : list (list Z))
    (n : nat) (s : list Z) :
  data !! n = Some s →
  (256 < length s)%nat →
  ∃ out,
    normalize (word_index raw) data = Ok out ∧
    out !! n = Some (drop (length s - 256) s) ∧
    length (drop (length s - 256) s) = 256%nat ∧
    ∀ s', (256 < length s')%nat →
          drop (length s' - 256) s' = drop (length s - 256) s →
          normalize (word_index raw) (<[n:=s']> data) = Ok out.
Proof.
  intros Hs Hlong. eexists. split; [apply normalize_rows|]. split_and!.
  - rewrite list_lookup_fmap, Hs. simpl.
    replace (256 - length s)%nat with 0%nat by lia. by rewrite app_nil_r.
  - rewrite length_drop. lia.
  - intros s' Hlong' Hsame. rewrite normalize_rows. f_equal.
    rewrite list_fmap_insert, Hsame.
    replace (256 - length s')%nat with (256 - length s)%nat by lia.
    apply list_insert_id. by rewrite list_lookup_fmap, Hs.
Qed.

Lemma C2_truncation_keeps_last_witness :
  let s := Z.of_nat <$> seq 0 300 in
  ∃ out,
    normalize (word_index []) [[1; 2]; s] = Ok out ∧
    out !! 1%nat = Some (drop (length s - 256) s) ∧
    length (drop (length s - 256) s) = 256%nat ∧
    ∀ s', (256 < length s')%nat →
          drop (length s' - 256) s' = drop (length s - 256) s →
          normalize (word_index []) (<[1%nat:=s']> [[1; 2]; s]) = Ok out.
Proof.
  intros s. apply (C2_truncation_keeps_last [] [[1; 2]; s] 1 s).
  - reflexivity.
  - vm_compute. lia.
Defined.

(** C6: sequence normalization is the call of [pad_sequences] with pad
    value 0, target length 256 and padding at the end; on every collection
    it returns as many sequences as it is given, each of length exactly
    256, a sequence of at most 256 tokens being followed by zeros; and the
    script applies this one transformation to the train and to the test
    partition. *)
Theorem C6_normalize_shape (raw : list (string * Z)) (data : list (list Z)) :
  ∃ out,
    normalize (word_index raw) data = Ok out ∧
    Keras.pad_sequences data (Some 256%nat) Keras.post Keras.default_truncating 0 = Ok out ∧
    length out = length data ∧
    Forall (λ row, length row = 256%nat) out ∧
    (∀ n s, data !! n = Some s → (length s ≤ 256)%nat →
            out !! n = Some (s ++ replicate (256 - length s) 0)) ∧
    (∀ ds o, script raw ds = Ok o →
             normalize (word_index raw) (train_data ds) = Ok (out_train_data o) ∧
             normalize (word_index raw) (test_data ds) = Ok (out_test_data o)).
Proof.
  eexists. split; [apply normalize_rows|]. split_and!.
  - rewrite <- (normalize_rows raw). unfold normalize. by rewrite word_index_PAD.
  - by rewrite length_fmap.
  - apply Forall_fmap, Forall_forall. intros s _. simpl.
    rewrite length_app, length_drop, length_replicate. lia.
  - intros n s Hs Hshort. rewrite list_lookup_fmap, Hs. simpl.
    by replace (length s - 256)%nat with 0%nat by lia.
  - intros ds o Hrun.
    apply script_Ok in Hrun as (first & train & test & _ & Htrain & Htest & ->).
    done.
Qed.

Lemma C6_normalize_shape_witness :
  let raw := [("the", 1); ("and", 2)] in
  let ds := Dataset [[1; 4; 5]; [1; 5]] [1; 0] [[1; 4]] [0] in
  ∃ o, script raw ds = Ok o ∧
       normalize (word_index raw) (train_data ds) = Ok (out_train_data o) ∧
       normalize (word_index raw) (test_data ds) = Ok (out_test_data o) ∧
       out_train_data o !! 1%nat = Some ([1; 5] ++ replicate 254 0).
Proof.
  intros raw ds.
  destruct (script raw ds) as [o|e] eqn:Hrun; [|by vm_compute in Hrun].
  exists o. split; [done|].
  destruct (C6_normalize_shape raw (train_data ds))
    as (out & Hout & _ & _ & _ & Hshort & Hscript).
  destruct (Hscript ds o Hrun) as [Htrain Htest].
  split_and!; [done | done |].
  assert (out = out_train_data o) as <- by congruence.
  apply (Hshort 1%nat [1; 5]); [reflexivity | simpl; lia].
Defined.

(** ** Train/validation split *)

Lemma slice_to_10000 {A} (l : list A) : slice_to 10000 l = take (Z.to_nat 10000) l.
Proof. by rewrite <- (slice_to_nat (Z.to_nat 10000)), Z2Nat.id by lia. Qed.

Lemma slice_from_10000 {A} (l : list A) : slice_from 10000 l = drop (Z.to_nat 10000) l.
Proof. by rewrite <- (slice_from_nat (Z.to_nat 10000)), Z2Nat.id by lia. Qed.

Example split_small :
  x_val [[1]; [2]; [3]] = [[1]; [2]; [3]] ∧ partial_x_train [[1]; [2]; [3]] = [].
Proof. by vm_compute. Qed.

(** C7: the split is a function of the partition alone.  The validation
    set is the first 10,000 rows and the optimized subset the rows after
    them, for the features and for the labels alike: row [i] of the
    validation set is row [i] of the partition, row [j] of the optimized
    subset is row [10000 + j], so that no row is in both, and the
    validation set followed by the optimized subset is the partition.  For
    a partition of 25,000 rows the parts have 10,000 and 15,000 rows. *)
Theorem C7_train_validation_split (data : list (list Z)) (labels : list Z) :
  (x_val data = take (Z.to_nat 10000) data ∧
   y_val labels = take (Z.to_nat 10000) labels) ∧
  (partial_x_train data = drop (Z.to_nat 10000) data ∧
   partial_y_train labels = drop (Z.to_nat 10000) labels) ∧
  (x_val data ++ partial_x_train data = data ∧
   y_val labels ++ partial_y_train labels = labels) ∧
  (∀ i, Z.of_nat i < 10000 →
        x_val data !! i = data !! i ∧ y_val labels !! i = labels !! i) ∧
  (∀ j, partial_x_train data !! j = data !! (Z.to_nat 10000 + j)%nat ∧
        partial_y_train labels !! j = labels !! (Z.to_nat 10000 + j)%nat) ∧
  (Z.of_nat (length data) = 25000 → Z.of_nat (length labels) = 25000 →
     Z.of_nat (length (x_val data)) = 10000 ∧
     Z.of_nat (length (partial_x_train data)) = 15000 ∧
     Z.of_nat (length (y_val labels)) = 10000 ∧
     Z.of_nat (length (partial_y_train labels)) = 15000) ∧
  (∀ raw ds o, script raw ds = Ok o →
     out_x_val o = x_val (out_train_data o) ∧
     out_partial_x_train o = partial_x_train (out_train_data o) ∧
     out_y_val o = y_val (train_labels ds) ∧
     out_partial_y_train o = partial_y_train (train_labels ds)).
Proof.
  unfold x_val, y_val, partial_x_train, partial_y_train.
  rewrite !slice_to_10000, !slice_from_10000. split_and!; try done.
  - apply take_drop.
  - apply take_drop.
  - intros i Hi. split; apply lookup_take_lt; lia.
  - intros j. split; apply lookup_drop.
  - intros Hdata Hlabels. rewrite !length_take, !length_drop. lia.
  - intros raw ds o Hrun.
    apply script_Ok in Hrun as (first & train & test & _ & _ & _ & ->). simpl.
    unfold x_val, y_val, partial_x_train, partial_y_train.
    by rewrite !slice_to_10000, !slice_from_10000.
Qed.

Lemma C7_train_validation_split_witness :
  let data := replicate (Z.to_nat 25000) [] in
  let labels := replicate (Z.to_nat 25000) 0 in
  Z.of_nat (length (x_val data)) = 10000 ∧
  Z.of_nat (length (partial_x_train data)) = 15000 ∧
  Z.of_nat (length (y_val labels)) = 10000 ∧
  Z.of_nat (length (partial_y_train labels)) = 15000.
Proof.
  intros data labels.
  assert (Hdata : Z.of_nat (length data) = 25000) by (by vm_compute).
  assert (Hlabels : Z.of_nat (length labels) = 25000) by (by vm_compute).
  destruct (C7_train_validation_split data labels) as (_ & _ & _ & _ & _ & Hsize & _).
  exact (Hsize Hdata Hlabels).
Defined.

(** ** Model definition *)

(** C8: the model is the stack of exactly four layers of lines 99-102, in
    this order: an embedding of the 10,000 vocabulary IDs into 16
    dimensions (a trainable table of 160,000 numbers), a global average
    pooling over the sequence axis, a dense layer of 16 units with ReLU
    and a dense layer of 1 unit with sigmoid; on rows of 256 IDs the
    layers return shapes (256, 16), (16), (16) and (1); the model is
    compiled with the Adam optimizer, the binary cross-entropy loss and
    accuracy as its one metric. *)
Theorem C8_model_architecture :
  Keras.layers compiled_model =
    [Keras.Embedding 10000 16; Keras.GlobalAveragePooling1D;
     Keras.Dense 16 "relu"; Keras.Dense 1 "sigmoid"] ∧
  length (Keras.layers compiled_model) = 4%nat ∧
  Keras.get_activation "relu" = Ok Keras.relu ∧
  Keras.get_activation "sigmoid" = Ok Keras.sigmoid ∧
  Keras.shapes (Keras.layers compiled_model) [Some 256] =
    Ok [[Some 256; Some 16]; [Some 16]; [Some 16]; [Some 1]] ∧
  Keras.param_count (Keras.Embedding vocab_size 16) [Some 256] = 10000 * 16 ∧
  Keras.total_params (Keras.layers compiled_model) [Some 256] = Ok 160289 ∧
  Keras.compiled compiled_model =
    Some (Keras.CompileArgs "adam" "binary_crossentropy" ["accuracy"]) ∧
  Keras.get_optimizer "adam" = Ok Keras.Adam ∧
  Keras.get_loss "binary_crossentropy" = Ok Keras.BinaryCrossentropy ∧
  Keras.get_metric <$> ["accuracy"] = [Ok Keras.Accuracy] ∧
  (∀ raw ds o, script raw ds = Ok o → out_model o = compiled_model).
Proof.
  split_and!; try reflexivity.
  intros raw ds o Hrun.
  by apply script_Ok in Hrun as (first & train & test & _ & _ & _ & ->).
Qed.

Lemma C8_model_architecture_witness :
  let raw := [("the", 1)] in
  let ds := Dataset [[1; 4]; [1]] [1; 0] [[4]] [1] in
  ∃ o, script raw ds = Ok o ∧ out_model o = compiled_model.
Proof.
  intros raw ds.
  destruct (script raw ds) as [o|e] eqn:Hrun; [|by vm_compute in Hrun].
  exists o. split; [done|].
  destruct C8_model_architecture as (_ & _ & _ & _ & _ & _ & _ & _ & _ & _ & _ & Hscript).
  exact (Hscript raw ds o Hrun).
Defined.

(** ** The call of the training loop *)




(** C1, on the code: the call of line 134 asks for 40 epochs and gives the
    validation data, but passes no [batch_size], so that the mini-batches
    have the library's default size 32, not the 512 of the comment at
    line 131.  On the 15,000 rows left by the split each pass makes 469
    parameter updates (468 batches of 32 rows and one of 24) where batches
    of 512 would make 30, and is followed by one evaluation on the 10,000
    validation rows. *)
Theorem C1_fit_call_batch_size :
  let data := replicate (Z.to_nat 25000) ([] : list Z) in
  let labels := replicate (Z.to_nat 25000) 0 in
  let a := fit_call data labels in
  Keras.fit_x a = partial_x_train data ∧
  Keras.fit_epochs a = 40%nat ∧
  Keras.fit_validation_data a = Some (x_val data, y_val labels) ∧
  Keras.fit_batch_size a = None ∧
  Keras.effective_batch_size a = 32%nat ∧
  Keras.effective_batch_size a ≠ 512%nat ∧
  Keras.fit_epoch a 0 =
    (Keras.Update 0 <$> (replicate 468 32%nat ++ [24%nat])) ++
    [Keras.Validate 0 (Z.to_nat 10000)] ∧
  length (Keras.batch_sizes (length (Keras.fit_x a)) 512) = 30%nat ∧
  length (Keras.fit_trace a) = (40 * (469 + 1))%nat.
Proof.
  intros data labels a. split_and!.
  - reflexivity.
  - reflexivity.
  - reflexivity.
  - reflexivity.
  - reflexivity.
  - vm_compute. lia.
  - vm_compute. reflexivity.
  - vm_compute. reflexivity.
  - vm_compute. reflexivity.
Qed.


(** * Further properties of the script *)

(** ** The words and IDs of the vocabulary *)

Section dict_size.
Context {K V : Type} `{EqDecision K}.
Implicit Types (d l : list (K * V)) (k : K) (v : V).

Lemma elem_keys_get d k : k ∈ PyDict.keys d ↔ is_Some (PyDict.get d k).
Proof.
  rewrite <- not_eq_None_Some, get_None.
  destruct (decide (k ∈ PyDict.keys d)); intuition.
Qed.

Lemma elem_keys_set d k v k' :
  k' ∈ PyDict.keys (PyDict.set d k v) ↔ k' = k ∨ k' ∈ PyDict.keys d.
Proof.
  rewrite !elem_keys_get, get_set.
  destruct (decide (k = k')) as [->|Hne].
  - split; [by left | by eauto].
  - split; [by right | intros [->|?]; done].
Qed.

Lemma length_set d k v :
  length (PyDict.set d k v) =
  (length d + if decide (k ∈ PyDict.keys d) then 0 else 1)%nat.
Proof.
  rewrite <- !(length_fmap fst). fold (PyDict.keys (PyDict.set d k v)).
  fold (PyDict.keys d). rewrite keys_set.
  destruct (decide (k ∈ PyDict.keys d)); [lia|].
  rewrite length_app. simpl. lia.
Qed.

End dict_size.

(** X1: the vocabulary is a dictionary whose words are exactly the words
    of the raw map and the four control tokens, each held once; it has
    one entry more than the raw map for each control token that is not
    already a word of the raw map, hence four more when none is. *)
Theorem X1_word_index_words (raw : list (string * Z)) :
  PyDict.wf raw →
  PyDict.wf (word_index raw) ∧
  (∀ w, w ∈ PyDict.keys (word_index raw) ↔
        w ∈ PyDict.keys raw ∨ w ∈ PyDict.keys control_tokens) ∧
  length (word_index raw) =
    (length raw +
     length (filter (λ w, w ∉ PyDict.keys raw) (PyDict.keys control_tokens)))%nat.
Proof.
  intros Hwf. split_and!.
  - apply wf_word_index.
  - intros w. rewrite !elem_keys_get, get_word_index by done.
    unfold control_id. destruct (PyDict.get control_tokens w); simpl.
    + split; [right|]; eauto.
    + rewrite fmap_is_Some.
      split; [by left | intros [?|Hnone]; [done | by destruct Hnone]].
  - unfold word_index. cbv zeta. rewrite !length_set.
    assert (Hlen : length (shift_ids raw) = length raw).
    { rewrite shift_ids_wf by done. apply length_fmap. }
    assert (Hkey : ∀ (P : Prop) `{Decision P} k, (P ↔ k ∈ PyDict.keys raw) →
      (if decide P then 0 else 1)%nat =
      length (filter (λ w, w ∉ PyDict.keys raw) [k])).
    { intros P ? k HP. rewrite filter_cons, filter_nil.
      destruct (decide P), (decide (k ∉ PyDict.keys raw)); simpl; tauto. }
    rewrite Hlen.
    rewrite (Hkey _ _ "<PAD>"), (Hkey _ _ "<START>"), (Hkey _ _ "<UNK>"),
      (Hkey _ _ "<UNUSED>").
    + rewrite <- !Nat.add_assoc, <- !length_app, <- !filter_app. done.
    + rewrite !elem_keys_set, keys_shift_ids by done. intuition congruence.
    + rewrite !elem_keys_set, keys_shift_ids by done. intuition congruence.
    + rewrite !elem_keys_set, keys_shift_ids by done. intuition congruence.
    + by rewrite keys_shift_ids.
Qed.


Lemma X1_word_index_words_witness :
  let raw := [("the", 1); ("<UNK>", 2); ("a", 3)] in
  PyDict.wf (word_index raw) ∧ length (word_index raw) = 6%nat.
Proof.
  intros raw.
  assert (Hwf : PyDict.wf raw) by by_evaluation.
  destruct (X1_word_index_words raw Hwf) as (Hwi & _ & Hlen).
  split; [exact Hwi|]. rewrite Hlen. reflexivity.
Defined.




Lemma reverse_word_index_control (raw : list (string * Z)) w c :
  PyDict.wf raw →
  Forall (λ v, 1 ≤ v) (PyDict.values raw) →
  (w, c) ∈ control_tokens →
  PyDict.get (reverse_word_index raw) c = Some w.
Proof.
  intros Hwf Hge Hin.
  pose proof (control_id_Some _ _ Hin) as Hc.
  apply get_of_pairs_unique.
  - apply (list_elem_of_fmap_2 swap_pair _ (w, c)), get_Some_elem.
    unfold PyDict.items. by rewrite get_word_index, Hc.
  - intros w' Hin'. unfold PyDict.items in Hin'.
    apply list_elem_of_fmap in Hin' as ([w0 c0] & Heq & Hin').
    unfold swap_pair in Heq. simpl in Heq. injection Heq as Hc0 Hw0. subst c0 w0.
    apply (elem_get _ _ _ (wf_word_index raw)) in Hin'.
    rewrite get_word_index in Hin' by done.
    destruct (control_id w') as [c'|] eqn:Hc'.
    + injection Hin' as ->. by eapply control_id_inj.
    + destruct (PyDict.get raw w') as [v|] eqn:Hv; [|done].
      injection Hin' as <-. apply control_id_range in Hc.
      pose proof (raw_rank_ge_1 _ _ _ Hge Hv). lia.
Qed.

(** X3: when the raw IDs are all at least 1, the IDs 0 to 3 decode to the
    four control tokens, whatever words the raw map holds: a review made
    of the IDs 0, 1, 2, 3 decodes to the four tokens in this order. *)
Theorem X3_control_ids_decode (raw : list (string * Z)) :
  PyDict.wf raw →
  Forall (λ v, 1 ≤ v) (PyDict.values raw) →
  (∀ w c, (w, c) ∈ control_tokens →
          PyDict.get (reverse_word_index raw) c = Some w) ∧
  decode_review (reverse_word_index raw) [0; 1; 2; 3] =
    "<PAD> <START> <UNK> <UNUSED>".
Proof.
  intros Hwf Hge. split.
  - intros w c. by apply reverse_word_index_control.
  - unfold decode_review, decode_fields, PyDict.get_default. simpl.
    rewrite (reverse_word_index_control raw "<PAD>" 0),
      (reverse_word_index_control raw "<START>" 1),
      (reverse_word_index_control raw "<UNK>" 2),
      (reverse_word_index_control raw "<UNUSED>" 3); try done; by_evaluation.
Qed.

Lemma X3_control_ids_decode_witness :
  let raw := [("<PAD>", 7); ("the", 1)] in
  PyDict.get (reverse_word_index raw) 0 = Some "<PAD>" ∧
  PyDict.get (reverse_word_index raw) 3 = Some "<UNUSED>".
Proof.
  intros raw.
  assert (Hwf : PyDict.wf raw) by by_evaluation.
  assert (Hge : Forall (λ v, 1 ≤ v) (PyDict.values raw)) by by_evaluation.
  destruct (X3_control_ids_decode raw Hwf Hge) as [Hcontrol _].
  split; apply Hcontrol; by_evaluation.
Defined.

(** ** Encoding, decoding and padding together *)

Lemma rmap_list_cons_Ok {A B} (f : A → result B) a l bs :
  rmap_list f (a :: l) = Ok bs →
  ∃ b bs', f a = Ok b ∧ rmap_list f l = Ok bs' ∧ bs = b :: bs'.
Proof.
  simpl. intros Hrun.
  apply rbind_Ok in Hrun as (b & Hb & Hrun).
  apply rbind_Ok in Hrun as (bs' & Hbs' & Hrun).
  injection Hrun as <-. by exists b, bs'.
Qed.

Lemma dict_getitem_Ok {K V} `{EqDecision K} (d : list (K * V)) k v :
  dict_getitem d k = Ok v ↔ PyDict.get d k = Some v.
Proof.
  unfold dict_getitem. destruct (PyDict.get d k); split; congruence.
Qed.

(** X4: for a frequency-ranked raw map, encoding then decoding is the
    identity on words: when every word of a list is in the vocabulary,
    decoding the IDs the vocabulary gives them returns the words, and
    [decode_review] returns them joined by spaces. *)
Theorem X4_encode_decode_roundtrip (raw : list (string * Z))
    (words : list string) (ids : list Z) :
  frequency_ranked raw →
  rmap_list (dict_getitem (word_index raw)) words = Ok ids →
  decode_fields (reverse_word_index raw) ids = words ∧
  decode_review (reverse_word_index raw) ids = str_join " " words.
Proof.
  intros Hraw Henc.
  assert (Hfields : decode_fields (reverse_word_index raw) ids = words).
  { revert ids Henc. induction words as [|w words IH]; intros ids Henc.
    - by injection Henc as <-.
    - apply rmap_list_cons_Ok in Henc as (i & ids' & Hi & Hids' & ->).
      apply dict_getitem_Ok in Hi.
      unfold decode_fields. rewrite fmap_cons. fold (decode_fields (reverse_word_index raw) ids').
      rewrite (IH ids' Hids'). unfold PyDict.get_default.
      by rewrite (reverse_word_index_complete raw w i Hraw Hi). }
  split; [done|]. unfold decode_review. by rewrite Hfields.
Qed.

Lemma X4_encode_decode_roundtrip_witness :
  let raw := [("the", 1); ("and", 2); ("a", 3)] in
  decode_review (reverse_word_index raw) [6; 4; 1; 5] = str_join " " ["a"; "the"; "<START>"; "and"].
Proof.
  intros raw.
  assert (Hraw : frequency_ranked raw).
  { unfold frequency_ranked, PyDict.wf. split_and!; by_evaluation. }
  apply (X4_encode_decode_roundtrip raw ["a"; "the"; "<START>"; "and"] [6; 4; 1; 5] Hraw).
  reflexivity.
Defined.

Lemma string_app_assoc (s t u : string) : (s +:+ t) +:+ u = s +:+ (t +:+ u).
Proof.
  induction s as [|a s IH]; [done|].
  change (String a ((s +:+ t) +:+ u) = String a (s +:+ (t +:+ u))). by rewrite IH.
Qed.

(** Joining two non-empty lists of parts. *)
Lemma str_join_app sep (ps qs : list string) :
  ps ≠ [] → qs ≠ [] →
  str_join sep (ps ++ qs) = str_join sep ps +:+ sep +:+ str_join sep qs.
Proof.
  intros Hps Hqs. induction ps as [|p [|p' ps] IH]; [done| |].
  - destruct qs as [|q qs]; [done|]. apply str_join_cons.
  - change ((p :: p' :: ps) ++ qs) with (p :: p' :: (ps ++ qs)).
    rewrite !str_join_cons.
    change (p' :: (ps ++ qs)) with ((p' :: ps) ++ qs). rewrite IH by done.
    by rewrite !string_app_assoc.
Qed.

(** X5: decoding distributes over concatenation: the fields of two
    sequences put end to end are the fields of the first followed by
    those of the second, and for two non-empty sequences the decoded
    string is the two decoded strings with one space between them; an
    empty sequence on either side adds nothing, not even a space. *)
Theorem X5_decode_review_app (rwi : list (Z * string)) (text1 text2 : list Z) :
  decode_fields rwi (text1 ++ text2) = decode_fields rwi text1 ++ decode_fields rwi text2 ∧
  decode_review rwi ([] ++ text2) = decode_review rwi text2 ∧
  decode_review rwi (text1 ++ []) = decode_review rwi text1 ∧
  (text1 ≠ [] → text2 ≠ [] →
   decode_review rwi (text1 ++ text2) =
   decode_review rwi text1 +:+ " " +:+ decode_review rwi text2).
Proof.
  split_and!.
  - apply fmap_app.
  - done.
  - by rewrite app_nil_r.
  - intros H1 H2. unfold decode_review, decode_fields. rewrite fmap_app.
    apply str_join_app; by destruct text1, text2.
Qed.

Lemma X5_decode_review_app_witness :
  let rwi := reverse_word_index [("the", 1)] in
  decode_review rwi ([1; 4] ++ [9; 2]) =
  decode_review rwi [1; 4] +:+ " " +:+ decode_review rwi [9; 2].
Proof.
  intros rwi.
  destruct (X5_decode_review_app rwi [1; 4] [9; 2]) as (_ & _ & _ & Happ).
  apply Happ; discriminate.
Defined.


(** X6: decoding a normalized short review shows its padding: when the
    raw IDs are all at least 1, the row made of a review of at most 256
    tokens decodes to the fields of the review followed by one [<PAD>]
    for each position added. *)
Theorem X6_decode_normalized (raw : list (string * Z)) (data : list (list Z))
    (n : nat) (s : list Z) :
  PyDict.wf raw →
  Forall (λ v, 1 ≤ v) (PyDict.values raw) →
  data !! n = Some s →
  (length s ≤ 256)%nat →
  ∃ out row,
    normalize (word_index raw) data = Ok out ∧
    out !! n = Some row ∧
    decode_fields (reverse_word_index raw) row =
      decode_fields (reverse_word_index raw) s ++ replicate (256 - length s) "<PAD>".
Proof.
  intros Hwf Hge Hs Hshort. eexists _, _. split_and!.
  - apply normalize_rows.
  - rewrite list_lookup_fmap, Hs. simpl. reflexivity.
  - replace (length s - 256)%nat with 0%nat by lia. simpl.
    unfold decode_fields. rewrite fmap_app, fmap_replicate. do 2 f_equal.
    unfold PyDict.get_default.
    rewrite (reverse_word_index_control raw "<PAD>" 0); [done..|by_evaluation].
Qed.

Lemma X6_decode_normalized_witness :
  let raw := [("the", 1); ("and", 2)] in
  ∃ out row,
    normalize (word_index raw) [[1; 4; 5]] = Ok out ∧
    out !! 0%nat = Some row ∧
    decode_fields (reverse_word_index raw) row =
      decode_fields (reverse_word_index raw) [1; 4; 5] ++ replicate 253 "<PAD>".
Proof.
  intros raw.
  apply (X6_decode_normalized raw [[1; 4; 5]] 0 [1; 4; 5]).
  - by_evaluation.
  - by_evaluation.
  - reflexivity.
  - simpl. lia.
Defined.

(** X7: sequence normalization is idempotent: normalizing a collection
    that already is the result of a normalization returns it unchanged. *)
Theorem X7_normalize_idempotent (raw : list (string * Z)) (data out : list (list Z)) :
  normalize (word_index raw) data = Ok out →
  normalize (word_index raw) out = Ok out.
Proof.
  rewrite !normalize_rows. intros [= <-]. f_equal.
  rewrite <- list_fmap_compose. apply list_fmap_ext. intros _ s _. simpl.
  set (row := drop (length s - 256) s ++ replicate (256 - length s) 0).
  assert (Hlen : length row = 256%nat).
  { unfold row. rewrite length_app, length_drop, length_replicate. lia. }
  rewrite Hlen. simpl. by rewrite app_nil_r.
Qed.

Lemma X7_normalize_idempotent_witness :
  let out := [[1; 14; 22] ++ replicate 253 0; replicate 256 0] in
  normalize (word_index []) out = Ok out.
Proof.
  intros out. apply (X7_normalize_idempotent [] [[1; 14; 22]; []] out).
  by vm_compute.
Defined.

(** ** The split and the data handed to the training loop *)

(** X8: the split never fails, whatever the size of the partition: the
    validation set has the first 10,000 rows or all of them when there
    are fewer, the optimized subset has the rows beyond the 10,000th, so
    that a partition of at most 10,000 rows goes whole to validation and
    leaves nothing to optimize; features and labels of equal number are
    split into parts of equal number. *)
Theorem X8_split_sizes (data : list (list Z)) (labels : list Z) :
  length (x_val data) = (Z.to_nat 10000 `min` length data)%nat ∧
  length (partial_x_train data) = (length data - Z.to_nat 10000)%nat ∧
  (Z.of_nat (length data) ≤ 10000 → x_val data = data ∧ partial_x_train data = []) ∧
  (Z.of_nat (length labels) ≤ 10000 → y_val labels = labels ∧ partial_y_train labels = []) ∧
  (length data = length labels →
   length (x_val data) = length (y_val labels) ∧
   length (partial_x_train data) = length (partial_y_train labels)).
Proof.
  unfold x_val, y_val, partial_x_train, partial_y_train.
  rewrite !slice_to_10000, !slice_from_10000. split_and!.
  - apply length_take.
  - apply length_drop.
  - intros Hle. split; [apply take_ge | apply drop_ge]; lia.
  - intros Hle. split; [apply take_ge | apply drop_ge]; lia.
  - intros Heq. rewrite !length_take, !length_drop. lia.
Qed.

Lemma X8_split_sizes_witness :
  let data := [[1; 2]; [3]] in
  x_val data = data ∧ partial_x_train data = [].
Proof.
  intros data.
  destruct (X8_split_sizes data [1; 0]) as (_ & _ & Hsmall & _).
  apply Hsmall. simpl. lia.
Defined.

Lemma normalize_singleton raw data n s out :
  normalize (word_index raw) data = Ok out →
  data !! n = Some s →
  ∃ row, out !! n = Some row ∧ normalize (word_index raw) [s] = Ok [row].
Proof.
  rewrite !normalize_rows. intros [= <-] Hs. eexists. split.
  - rewrite list_lookup_fmap, Hs. reflexivity.
  - reflexivity.
Qed.

Lemma normalize_lookup_inv raw data n row out :
  normalize (word_index raw) data = Ok out →
  out !! n = Some row →
  ∃ s, data !! n = Some s ∧ normalize (word_index raw) [s] = Ok [row].
Proof.
  intros Hout Hrow.
  destruct (data !! n) as [s|] eqn:Hs.
  - destruct (normalize_singleton _ _ _ _ _ Hout Hs) as (row' & Hrow' & Hnorm).
    exists s. split; [done|]. congruence.
  - rewrite normalize_rows in Hout. injection Hout as <-.
    rewrite list_lookup_fmap, Hs in Hrow. done.
Qed.

(** X9: the examples stay paired through normalization and split: in a
    run of the script, row [j] of the optimized features is the
    normalized review [10000 + j] of the training data and row [j] of the
    optimized labels is label [10000 + j]; row [j] of the validation
    features, for [j] below 10,000, is the normalized review [j] and its
    label is label [j]. *)
Theorem X9_examples_stay_paired (raw : list (string * Z)) (ds : dataset)
    (o : outcome) (j : nat) :
  script raw ds = Ok o →
  (∀ row, out_partial_x_train o !! j = Some row →
     ∃ s, train_data ds !! (Z.to_nat 10000 + j)%nat = Some s ∧
          normalize (word_index raw) [s] = Ok [row]) ∧
  out_partial_y_train o !! j = train_labels ds !! (Z.to_nat 10000 + j)%nat ∧
  (Z.of_nat j < 10000 →
     (∀ row, out_x_val o !! j = Some row →
        ∃ s, train_data ds !! j = Some s ∧
             normalize (word_index raw) [s] = Ok [row]) ∧
     out_y_val o !! j = train_labels ds !! j).
Proof.
  intros Hrun.
  apply script_Ok in Hrun as (first & train & test & _ & Htrain & _ & ->).
  cbn [out_partial_x_train out_partial_y_train out_x_val out_y_val].
  unfold x_val, y_val, partial_x_train, partial_y_train.
  rewrite !slice_to_10000, !slice_from_10000. split_and!.
  - intros row Hrow. rewrite lookup_drop in Hrow.
    by eapply normalize_lookup_inv.
  - apply lookup_drop.
  - intros Hj. split.
    + intros row Hrow. rewrite lookup_take_lt in Hrow by lia.
      by eapply normalize_lookup_inv.
    + apply lookup_take_lt. lia.
Qed.

Lemma X9_examples_stay_paired_witness :
  let raw := [("the", 1)] in
  let ds := Dataset [[1; 4]; [1]] [1; 0] [[4]] [1] in
  ∃ o, script raw ds = Ok o ∧
       out_y_val o !! 1%nat = Some 0 ∧
       out_partial_y_train o !! 0%nat = None.
Proof.
  intros raw ds.
  destruct (script raw ds) as [o|e] eqn:Hrun; [|by vm_compute in Hrun].
  exists o. split; [done|].
  destruct (X9_examples_stay_paired raw ds o 1 Hrun) as (_ & _ & Hval).
  destruct (X9_examples_stay_paired raw ds o 0 Hrun) as (_ & Hpart & _).
  split.
  - destruct Hval as [_ Hlabel]; [lia|]. rewrite Hlabel. reflexivity.
  - rewrite Hpart. reflexivity.
Defined.

(** X10: the training loop and the evaluation only see rows of 256 IDs:
    in a run of the script every row of the validation features, of the
    optimized features and of the normalized test data has length 256,
    the test data keeps its number of rows, and the call of [fit] takes
    the optimized features and labels as its data and the validation
    features and labels as its validation data. *)
Theorem X10_rows_fed_to_model (raw : list (string * Z)) (ds : dataset) (o : outcome) :
  script raw ds = Ok o →
  Forall (λ row, length row = 256%nat) (out_x_val o) ∧
  Forall (λ row, length row = 256%nat) (out_partial_x_train o) ∧
  Forall (λ row, length row = 256%nat) (out_test_data o) ∧
  length (out_test_data o) = length (test_data ds) ∧
  Keras.fit_x (out_fit o) = out_partial_x_train o ∧
  Keras.fit_y (out_fit o) = out_partial_y_train o ∧
  Keras.fit_validation_data (out_fit o) = Some (out_x_val o, out_y_val o).
Proof.
  intros Hrun.
  apply script_Ok in Hrun as (first & train & test & _ & Htrain & Htest & ->). simpl.
  rewrite normalize_rows in Htrain, Htest.
  injection Htrain as <-. injection Htest as <-.
  assert (Hrows : ∀ data : list (list Z),
    Forall (λ row, length row = 256%nat)
      ((λ s, drop (length s - 256) s ++ replicate (256 - length s) 0) <$> data)).
  { intros data. apply Forall_fmap, Forall_forall. intros s _. simpl.
    rewrite length_app, length_drop, length_replicate. lia. }
  unfold x_val, partial_x_train. rewrite slice_to_10000, slice_from_10000.
  split_and!; try done.
  - by apply Forall_take.
  - by apply Forall_drop.
  - by rewrite length_fmap.
Qed.

Lemma X10_rows_fed_to_model_witness :
  let raw := [("the", 1)] in
  let ds := Dataset [[1; 4]; [1]] [1; 0] [[4]] [1] in
  ∃ o, script raw ds = Ok o ∧
       Forall (λ row, length row = 256%nat) (out_x_val o) ∧
       length (out_test_data o) = 1%nat.
Proof.
  intros raw ds.
  destruct (script raw ds) as [o|e] eqn:Hrun; [|by vm_compute in Hrun].
  exists o. split; [done|].
  destruct (X10_rows_fed_to_model raw ds o Hrun) as (Hval & _ & _ & Htest & _).
  split; [exact Hval | exact Htest].
Defined.

(** ** When the script runs to its end *)

Lemma list_getitem_Ok {A} (l : list A) i :
  (i < length l)%nat → ∃ a, list_getitem l i = Ok a.
Proof.
  intros Hi. unfold list_getitem.
  destruct (lookup_lt_is_Some_2 l i Hi) as [a ->]. by exists a.
Qed.

Lemma list_getitem_Raise {A} (l : list A) i :
  (length l ≤ i)%nat → list_getitem l i = Raise IndexError.
Proof.
  intros Hi. unfold list_getitem. by rewrite lookup_ge_None_2.
Qed.

(** X11: on data whose tokens are [int32] values, as token IDs are, the
    script reaches the call of [fit] exactly when the test data has a row
    and the training data has two; with less it stops with an
    [IndexError], at [test_data[0]], [train_data[0]] or [train_data[1]].
    On such data no vocabulary makes it stop with another exception: the
    lookup of [<PAD>] and the normalization always succeed. *)
Theorem X11_script_outcome (raw : list (string * Z)) (ds : dataset) :
  int32_rows (train_data ds) →
  int32_rows (test_data ds) →
  ((0 < length (test_data ds))%nat ∧ (2 ≤ length (train_data ds))%nat →
   ∃ o, script raw ds = Ok o) ∧
  (¬ ((0 < length (test_data ds))%nat ∧ (2 ≤ length (train_data ds))%nat) →
   script raw ds = Raise IndexError).
Proof.
  intros _ _. unfold script. rewrite !normalize_rows. split.
  - intros [Htest Htrain].
    destruct (list_getitem_Ok (test_data ds) 0) as [r0 ->]; [lia|].
    destruct (list_getitem_Ok (train_data ds) 0) as [r1 ->]; [lia|].
    cbn [rbind].
    set (train := _ <$> train_data ds).
    assert (Hlen : length train = length (train_data ds)) by apply length_fmap.
    destruct (list_getitem_Ok train 0) as [r2 ->]; [lia|].
    destruct (list_getitem_Ok train 1) as [r3 ->]; [lia|].
    cbn [rbind]. eauto.
  - intros Hsmall.
    destruct (decide (0 < length (test_data ds))%nat) as [Htest|Htest];
      [|by rewrite list_getitem_Raise by lia].
    destruct (list_getitem_Ok (test_data ds) 0) as [r0 ->]; [lia|].
    cbn [rbind].
    destruct (decide (0 < length (train_data ds))%nat) as [Htrain|Htrain];
      [|by rewrite list_getitem_Raise by lia].
    destruct (list_getitem_Ok (train_data ds) 0) as [r1 ->]; [lia|].
    cbn [rbind].
    set (train := _ <$> train_data ds).
    assert (Hlen : length train = length (train_data ds)) by apply length_fmap.
    destruct (list_getitem_Ok train 0) as [r2 ->]; [lia|].
    cbn [rbind]. by rewrite list_getitem_Raise by lia.
Qed.

Lemma int32_rows_small (data : list (list Z)) :
  Forall (Forall (λ t, 0 ≤ t < 10000)) data → int32_rows data.
Proof.
  unfold int32_rows, int32. intros Hdata.
  eapply Forall_impl; [exact Hdata|]. intros row Hrow.
  eapply Forall_impl; [exact Hrow|]. intros t Ht. simpl in Ht. lia.
Qed.

Lemma X11_script_outcome_witness :
  (∃ o, script [("the", 1)] (Dataset [[1; 4]; []] [1; 0] [[4]] [1]) = Ok o) ∧
  script [("the", 1)] (Dataset [[1; 4]] [1] [[4]] [1]) = Raise IndexError.
Proof.
  split.
  - apply (X11_script_outcome [("the", 1)] (Dataset [[1; 4]; []] [1; 0] [[4]] [1])).
    + apply int32_rows_small. by_evaluation.
    + apply int32_rows_small. by_evaluation.
    + simpl. lia.
  - apply (X11_script_outcome [("the", 1)] (Dataset [[1; 4]] [1] [[4]] [1])).
    + apply int32_rows_small. by_evaluation.
    + apply int32_rows_small. by_evaluation.
    + simpl. lia.
Defined.

(** ** The passes of the training loop *)



Lemma length_slice_to_10000 {A} (l : list A) :
  length (slice_to 10000 l) = (Z.to_nat 10000 `min` length l)%nat.
Proof. rewrite slice_to_10000. apply length_take. Qed.

Lemma length_slice_from_10000 {A} (l : list A) :
  length (slice_from 10000 l) = (length l - Z.to_nat 10000)%nat.
Proof. rewrite slice_from_10000. apply length_drop. Qed.

(** The data of the call of line 134 is accepted exactly when the
    partition has more than 10,000 rows and as many labels. *)
Lemma fit_call_data_ok (data : list (list Z)) (labels : list Z) :
  KerasHistory.fit_data_ok (fit_call data labels) =
  bool_decide (10000 < Z.of_nat (length data) ∧ length data = length labels).
Proof.
  unfold KerasHistory.fit_data_ok, fit_call.
  cbn [Keras.fit_x Keras.fit_y Keras.fit_validation_data].
  unfold x_val, y_val, partial_x_train, partial_y_train.
  rewrite !length_slice_to_10000, !length_slice_from_10000.
  destruct (decide (10000 < Z.of_nat (length data) ∧ length data = length labels))
    as [[Hlong Heq]|Hno].
  - rewrite (bool_decide_eq_true_2 (_ ∧ _)) by done.
    rewrite !bool_decide_eq_true_2; [done | lia..].
  - rewrite (bool_decide_eq_false_2 (_ ∧ _)) by done.
    destruct (decide (10000 < Z.of_nat (length data))) as [Hlong|Hshort].
    + rewrite (bool_decide_eq_false_2 (_ - _ = _ - _)%nat); [|lia].
      by rewrite andb_false_r.
    + by rewrite (bool_decide_eq_false_2 (0 < _)%nat) by lia.
Qed.





(** ** The training history *)

Example history_small :
  KerasHistory.fit_history (λ name epoch, (name, epoch)) compiled_model
    (Keras.FitArgs [[1]] [1] None 2 (Some ([[1]], [0])) 1) =
  Some [("loss", [("loss", 0%nat); ("loss", 1%nat)]);
        ("accuracy", [("accuracy", 0%nat); ("accuracy", 1%nat)]);
        ("val_loss", [("val_loss", 0%nat); ("val_loss", 1%nat)]);
        ("val_accuracy", [("val_accuracy", 0%nat); ("val_accuracy", 1%nat)])].
Proof. reflexivity. Qed.

(** Without validation data the history has no [val_] series and line
    154 stops the script. *)
Example read_history_no_validation :
  (h ← KerasHistory.fit_history (λ name epoch, epoch) compiled_model
         (Keras.FitArgs [[1]] [1] None 2 None 1);
   Some (read_history h)) = Some (Raise KeyError).
Proof. reflexivity. Qed.

Lemma py_range_from_1 (n : nat) :
  py_range 1 (Z.of_nat n + 1) = seqZ 1 (Z.of_nat n) ∧
  length (py_range 1 (Z.of_nat n + 1)) = n.
Proof.
  unfold py_range. replace (Z.of_nat n + 1 - 1) with (Z.of_nat n) by lia.
  split; [done|]. rewrite length_seqZ. lia.
Qed.

(** X13: the history of the training call, read as lines 152-160 read
    it.  For a training partition of more than 10,000 rows with as many
    labels, whatever numbers the training produces, the history has the
    four series loss, accuracy, val_loss and val_accuracy, in this order;
    the four lookups succeed; each series has one value per epoch, 40 in
    all, and [epochs] counts them from 1 to 40, so that every plotted
    series has as many points as the epoch axis.  For any other partition
    [fit] raises and there is no history to read. *)
Theorem X13_history_report {R} (value : string → nat → R)
    (data : list (list Z)) (labels : list Z) :
  (10000 < Z.of_nat (length data) ∧ length data = length labels →
   ∃ h r,
     KerasHistory.fit_history value compiled_model (fit_call data labels) = Some h ∧
     PyDict.keys h = ["loss"; "accuracy"; "val_loss"; "val_accuracy"] ∧
     read_history h = Ok r ∧
     rep_acc r = value "accuracy" <$> seq 0 40 ∧
     rep_val_acc r = value "val_accuracy" <$> seq 0 40 ∧
     rep_loss r = value "loss" <$> seq 0 40 ∧
     rep_val_loss r = value "val_loss" <$> seq 0 40 ∧
     rep_epochs r = seqZ 1 40 ∧
     Forall (λ series, length series = length (rep_epochs r))
       [rep_acc r; rep_val_acc r; rep_loss r; rep_val_loss r]) ∧
  (¬ (10000 < Z.of_nat (length data) ∧ length data = length labels) →
   KerasHistory.fit_history value compiled_model (fit_call data labels) = None).
Proof.
  unfold KerasHistory.fit_history.
  change (Keras.compiled compiled_model)
    with (Some (Keras.CompileArgs "adam" "binary_crossentropy" ["accuracy"])).
  cbn [mbind option_bind]. rewrite fit_call_data_ok. split.
  - intros Hok. rewrite bool_decide_eq_true_2 by done.
    eexists _, _. split_and!; try reflexivity.
    repeat constructor.
  - intros Hno. by rewrite bool_decide_eq_false_2.
Qed.

Lemma X13_history_report_witness :
  let data := replicate (Z.to_nat 10050) ([] : list Z) in
  let labels := replicate (Z.to_nat 10050) 1 in
  (∃ h r,
     KerasHistory.fit_history (λ _ epoch, epoch) compiled_model (fit_call data labels) =
       Some h ∧
     read_history h = Ok r ∧ rep_epochs r = seqZ 1 40) ∧
  KerasHistory.fit_history (λ _ epoch, epoch) compiled_model (fit_call [[1]; [2]] [1; 0]) =
    None.
Proof.
  intros data labels. split.
  - destruct (X13_history_report (λ _ epoch, epoch) data labels) as [Hrun _].
    destruct Hrun as (h & r & Hh & _ & Hr & _ & _ & _ & _ & Hepochs & _).
    + split; by vm_compute.
    + exists h, r. exact (conj Hh (conj Hr Hepochs)).
  - apply (X13_history_report (λ _ epoch, epoch) [[1]; [2]] [1; 0]). simpl. lia.
Defined.

Lemma read_history_Ok {R} (h : list (string * list R)) acc val_acc loss val_loss :
  PyDict.get h "accuracy" = Some acc →
  PyDict.get h "val_accuracy" = Some val_acc →
  PyDict.get h "loss" = Some loss →
  PyDict.get h "val_loss" = Some val_loss →
  read_history h =
    Ok (Report acc val_acc loss val_loss (py_range 1 (Z.of_nat (length acc) + 1))).
Proof.
  intros Ha Hva Hl Hvl. unfold read_history, dict_getitem.
  by rewrite Ha, Hva, Hl, Hvl.
Qed.

Lemma read_history_Raise {R} (h : list (string * list R)) k :
  k ∈ ["accuracy"; "val_accuracy"; "loss"; "val_loss"] →
  PyDict.get h k = None →
  read_history h = Raise KeyError.
Proof.
  intros Hk Hnone. unfold read_history, dict_getitem.
  repeat (apply elem_of_cons in Hk as [->|Hk];
    [rewrite Hnone;
     repeat match goal with
     | |- context [PyDict.get h ?k'] => destruct (PyDict.get h k')
     end; reflexivity|]).
  by apply elem_of_nil in Hk.
Qed.

(** X14: reading a history dictionary of any content.  When it has the
    four keys accuracy, val_accuracy, loss and val_loss, lines 152-160
    bind the four series stored under them and an epoch axis that counts
    from 1 to the length of the accuracy series; when one of the four
    keys is missing, they raise [KeyError]. *)
Theorem X14_read_history_keys {R} (h : list (string * list R)) :
  (Forall (λ k, k ∈ PyDict.keys h) ["accuracy"; "val_accuracy"; "loss"; "val_loss"] →
   ∃ r, read_history h = Ok r ∧
        PyDict.get h "accuracy" = Some (rep_acc r) ∧
        PyDict.get h "val_accuracy" = Some (rep_val_acc r) ∧
        PyDict.get h "loss" = Some (rep_loss r) ∧
        PyDict.get h "val_loss" = Some (rep_val_loss r) ∧
        rep_epochs r = seqZ 1 (Z.of_nat (length (rep_acc r))) ∧
        length (rep_epochs r) = length (rep_acc r)) ∧
  (¬ Forall (λ k, k ∈ PyDict.keys h) ["accuracy"; "val_accuracy"; "loss"; "val_loss"] →
   read_history h = Raise KeyError).
Proof.
  split.
  - intros Hkeys.
    apply Forall_cons in Hkeys as [[acc Ha]%elem_keys_get Hkeys].
    apply Forall_cons in Hkeys as [[val_acc Hva]%elem_keys_get Hkeys].
    apply Forall_cons in Hkeys as [[loss Hl]%elem_keys_get Hkeys].
    apply Forall_cons in Hkeys as [[val_loss Hvl]%elem_keys_get _].
    eexists. split; [by apply read_history_Ok|]. simpl.
    destruct (py_range_from_1 (length acc)) as [Hrange Hlen].
    by split_and!.
  - intros Hmissing. apply not_Forall_Exists in Hmissing; [|apply _].
    apply Exists_exists in Hmissing as (k & Hk & Hnot).
    apply (read_history_Raise h k Hk). by apply get_None.
Qed.

Lemma X14_read_history_keys_witness :
  (∃ r, read_history [("loss", [3; 2]); ("accuracy", [5; 6]);
                      ("val_loss", [4; 4]); ("val_accuracy", [5; 5])] = Ok r ∧
        rep_epochs r = seqZ 1 2) ∧
  read_history [("loss", [3; 2]); ("acc", [5; 6])] = Raise KeyError.
Proof.
  split.
  - destruct (X14_read_history_keys
      [("loss", [3; 2]); ("accuracy", [5; 6]);
       ("val_loss", [4; 4]); ("val_accuracy", [5; 5])]) as [Hok _].
    destruct Hok as (r & Hr & Hacc & _ & _ & _ & Hepochs & _); [by_evaluation|].
    exists r. split; [exact Hr|]. rewrite Hepochs.
    injection Hacc as <-. reflexivity.
  - apply (X14_read_history_keys [("loss", [3; 2]); ("acc", [5; 6])]).
    intros Hall. apply Forall_cons in Hall as [Hacc _].
    revert Hacc. by_evaluation.
Defined.

